(** * Crawl4AI knowledge-graph server: the crawl core of [server.py]

    A shallow embedding of [src/mcp-server/src/crawl4ai_mcp/server.py]:
    the link filter [should_crawl_link], the page fetcher adapter
    [crawl_documentation] and the breadth-first crawl controller
    [extend_knowledge_graph], together with the properties the
    specification states about them.

    Python values that cross the boundary to the external crawling engine
    are dynamically typed, so they are embedded as a small universe of
    Python values ([PyVal]); dictionaries with string keys are association
    lists read with [dict_get], the [nodes] mapping of the knowledge graph
    is a [gmap], the visited set a [gset].

    What is outside the module is a parameter. The engine's [arun] is a
    function on an abstract outside world [E] that returns a result or
    raises; the module-level [crawler] variable is a field of the process
    state [World]. Effects are threaded by explicit state passing, and an
    exception is a value: [Res] for an expression, [Outcome] for a piece of
    the controller.

    Three things are left out. The exceptions are those deriving from
    [Exception], the ones [except Exception] catches. Constructing the
    engine's objects ([AsyncWebCrawler], [LLMExtractionStrategy]) only
    builds them and does not raise. Logging is not recorded.

    The name [crawl_documentation] in the loop of [extend_knowledge_graph]
    is looked up when the call is made, so the controller is stated over
    any callee [fetch] of that signature; [server_extend_knowledge_graph]
    is the controller with the module's own [crawl_documentation]. *)

From Stdlib Require Import ZArith.
From Equations Require Import Equations.
From stdpp Require Import gmap strings list sorting.

Local Open Scope Z_scope.
Local Open Scope string_scope.

(** ** Python strings: [str.startswith] and the [in] operator *)

Module Str.

(** [s.startswith(p)] *)
Fixpoint startswith (s p : string) {struct p} : bool :=
  match p with
  | EmptyString => true
  | String c p' =>
      match s with
      | EmptyString => false
      | String c' s' => if Ascii.eqb c c' then startswith s' p' else false
      end
  end.

(** [sub in s] for two strings: [sub] occurs in [s] at some offset. *)
Fixpoint contains (s sub : string) : bool :=
  startswith s sub ||
  match s with
  | EmptyString => false
  | String _ s' => contains s' sub
  end.

(** [any(p in s for p in ps)] *)
Definition any_in (ps : list string) (s : string) : bool :=
  existsb (contains s) ps.

End Str.

(** ** The link filter *)

(** The default patterns of [should_crawl_link]. *)
Definition default_patterns : list string :=
  ["/api/"; "/guide/"; "/docs/"; "/reference/"; "/tutorial/"].

(** [if patterns:] is Python truthiness on [Optional[List[str]]]: both
    [None] and the empty list are falsy. *)
Definition patterns_truthy (patterns : option (list string)) : bool :=
  match patterns with
  | Some (_ :: _) => true
  | _ => false
  end.

(** [should_crawl_link] *)
Definition should_crawl_link
    (link base_url : string) (patterns : option (list string)) : bool :=
  if negb (Str.startswith link base_url) then false
  else if patterns_truthy patterns then
    Str.any_in (default [] patterns) link
  else
    Str.any_in default_patterns link.

(** ** Python values, dictionaries and exceptions *)

(** The values exchanged with the crawling engine and stored in the result
    dictionaries. [VDict] is a dictionary with string keys, in insertion
    order. *)
#[local] Unset Elimination Schemes.
Inductive PyVal : Type :=
| VNone
| VBool (b : bool)
| VInt (n : Z)
| VStr (s : string)
| VList (l : list PyVal)
| VDict (d : list (string * PyVal)).
#[local] Set Elimination Schemes.

Abbreviation Dict := (list (string * PyVal)).

(** Exceptions deriving from Python's [Exception]; [exn_str] is [str(e)]. *)
Record PyExn := mkExn { exn_class : string; exn_str : string }.

Inductive Res (A : Type) : Type :=
| Ok (a : A)
| Raise (e : PyExn).
Arguments Ok {A} a.
Arguments Raise {A} e.

Definition py_typename (v : PyVal) : string :=
  match v with
  | VNone => "NoneType"
  | VBool _ => "bool"
  | VInt _ => "int"
  | VStr _ => "str"
  | VList _ => "list"
  | VDict _ => "dict"
  end.

Definition AttributeError (v : PyVal) (attr : string) : PyExn :=
  mkExn "AttributeError"
        ("'" +:+ py_typename v +:+ "' object has no attribute '" +:+ attr +:+ "'").

Definition TypeError_not_iterable (v : PyVal) : PyExn :=
  mkExn "TypeError" ("'" +:+ py_typename v +:+ "' object is not iterable").

Definition IndexError_pop : PyExn := mkExn "IndexError" "pop from empty list".

(** Truthiness, as [if v:] evaluates it. *)
Definition py_truthy (v : PyVal) : bool :=
  match v with
  | VNone => false
  | VBool b => b
  | VInt n => negb (Z.eqb n 0)
  | VStr s => negb (String.eqb s EmptyString)
  | VList l => match l with [] => false | _ => true end
  | VDict d => match d with [] => false | _ => true end
  end.

(** [k in d] and [d.get(k)] on a dictionary. *)
Fixpoint dict_get (d : Dict) (k : string) : option PyVal :=
  match d with
  | [] => None
  | (k', v) :: d' => if String.eqb k k' then Some v else dict_get d' k
  end.

Definition has_key (d : Dict) (k : string) : bool :=
  match dict_get d k with Some _ => true | None => false end.

(** [d.get(k, dflt)]; [d.get(k)] is [dict_get_or d k VNone]. *)
Definition dict_get_or (d : Dict) (k : string) (dflt : PyVal) : PyVal :=
  default dflt (dict_get d k).

(** [v.get(k, dflt)] on an arbitrary value: only dictionaries have [get]. *)
Definition py_get (v : PyVal) (k : string) (dflt : PyVal) : Res PyVal :=
  match v with
  | VDict d => Ok (dict_get_or d k dflt)
  | _ => Raise (AttributeError v "get")
  end.

(** A Python [str] is a sequence of code points; it is held here as the
    bytes of its UTF-8 encoding. [Str.startswith] and [Str.contains] on the
    bytes agree with Python's on the code points, since one well-formed
    UTF-8 string occurs in another only at code-point boundaries. Iterating
    a string is by code point: a byte [10xxxxxx] continues the code point
    of the byte before it. *)
Definition utf8_continuation (c : Ascii.ascii) : bool :=
  match c with
  | Ascii.Ascii _ _ _ _ _ _ b6 b7 => b7 && negb b6
  end.

(** The bytes of [s] grouped from the right: the continuation bytes at the
    front of [s] that still wait for their leading byte, and the code points
    after them. *)
Fixpoint utf8_group (s : string) : string * list string :=
  match s with
  | EmptyString => (EmptyString, [])
  | String c s' =>
      let '(pending, chars) := utf8_group s' in
      if utf8_continuation c then (String c pending, chars)
      else (EmptyString, String c pending :: chars)
  end.

(** The one-code-point strings of [s], in order. *)
Definition utf8_chars (s : string) : list string :=
  let '(pending, chars) := utf8_group s in
  match pending with
  | EmptyString => chars
  | _ => pending :: chars
  end.

(** The sequence [for x in v] runs over: the elements of a list, the keys
    of a dictionary, the one-character strings of a string. *)
Definition py_iter (v : PyVal) : Res (list PyVal) :=
  match v with
  | VList l => Ok l
  | VDict d => Ok (map (fun kv => VStr (fst kv)) d)
  | VStr s => Ok (map VStr (utf8_chars s))
  | _ => Raise (TypeError_not_iterable v)
  end.

(** ** The external crawling engine *)

(** The engine's [AsyncWebCrawler] object, as [init_crawler] configures it. *)
Record AsyncWebCrawler := mkCrawler {
  browser_type : string;
  headless : bool;
  verbose : bool
}.

(** The keyword arguments [crawl_documentation] passes to [crawler.arun],
    one per entry of its [extraction_config] table: markdown output; JSON
    output with the LLM extraction strategy and its schema; extraction of
    links. *)
Inductive ArunConfig :=
| MarkdownOutput
| JsonOutputWithLLM
| LinkExtraction.

(** The attributes of the engine's result that the server reads. *)
Record CrawlResult := mkCrawlResult {
  metadata : PyVal;
  markdown : PyVal;
  extracted_content : PyVal;
  links : PyVal;
  success : PyVal
}.

(** The process state: the module-level [crawler] variable and the state
    of everything outside the process (the engine and the web), [E]. *)
Record World (E : Type) := mkWorld {
  crawler : option AsyncWebCrawler;
  engine : E
}.
Arguments mkWorld {E} _ _.
Arguments crawler {E} _.
Arguments engine {E} _.

(** [crawler.arun(url=url, **config)]: returns a result or raises, and
    changes the outside world. *)
Definition Arun (E : Type) : Type :=
  AsyncWebCrawler -> string -> ArunConfig -> E -> Res CrawlResult * E.

(** ** The page fetcher adapter *)

Section Fetcher.
Context {E : Type}.
Variable arun : Arun E.

(** [init_crawler]: the crawler is created on first use and kept in the
    module-level variable. *)
Definition init_crawler (w : World E) : AsyncWebCrawler * World E :=
  match crawler w with
  | None =>
      let c := mkCrawler "chromium" true false in
      (c, mkWorld (Some c) (engine w))
  | Some c => (c, w)
  end.

(** [extraction_config.get(extract_type, extraction_config["markdown"])] *)
Definition extraction_config (extract_type : string) : ArunConfig :=
  if String.eqb extract_type "markdown" then MarkdownOutput
  else if String.eqb extract_type "structured" then JsonOutputWithLLM
  else if String.eqb extract_type "links" then LinkExtraction
  else MarkdownOutput.

(** The dictionary of the [except Exception] branch. *)
Definition failure_result (url : string) (e : PyExn) : Dict :=
  [("url", VStr url); ("error", VStr (exn_str e)); ("success", VBool false)].

(** [crawl_documentation]: the body of the [try], with an exception of the
    engine call or of [result.metadata.get] taken to the [except] branch. *)
Definition crawl_documentation (url extract_type : string) (w : World E)
  : Dict * World E :=
  let '(c, w) := init_crawler w in
  let config := extraction_config extract_type in
  let '(r, e') := arun c url config (engine w) in
  let w := mkWorld (crawler w) e' in
  match r with
  | Raise e => (failure_result url e, w)
  | Ok result =>
      match py_get (metadata result) "title" (VStr EmptyString) with
      | Raise e => (failure_result url e, w)
      | Ok title =>
          ([("url", VStr url);
            ("title", title);
            ("content", if String.eqb extract_type "markdown"
                        then markdown result else extracted_content result);
            ("links", if String.eqb extract_type "links"
                      then links result else VList []);
            ("metadata", metadata result);
            ("success", success result)], w)
      end
  end.

End Fetcher.

(** ** The knowledge graph *)

Record PageNode := mkNode {
  node_title : PyVal;
  node_concepts : PyVal;
  node_apis : PyVal;
  node_depth : Z
}.

Record Edge := mkEdge {
  edge_from : string;
  edge_to : string;
  edge_type : string
}.

Record KnowledgeGraph := mkGraph {
  kg_framework : string;
  kg_base_url : string;
  kg_nodes : gmap string PageNode;
  kg_relationships : list Edge
}.

(** ** The crawl controller *)

(** One call of the fetch operation, as the instrumentation records it: the
    URL, the depth of the queue entry it was issued for, and the visited set
    at the moment of the call. *)
Record FetchCall := mkFetchCall {
  fc_url : string;
  fc_depth : Z;
  fc_visited : gset string
}.

(** The variables of [extend_knowledge_graph] that its loop reads and
    writes, [knowledge_graph], [url_queue], [visited_urls] and the process
    state, and three logs that the source does not have and that no
    operation reads: every entry appended to the queue, every entry popped
    from it, and every fetch issued, each in the order it happened. *)
Record State (E : Type) := mkState {
  knowledge_graph : KnowledgeGraph;
  url_queue : list (string * Z);
  visited_urls : gset string;
  world : World E;
  enqueued : list (string * Z);
  dequeued : list (string * Z);
  fetched : list FetchCall
}.
Arguments mkState {E} _ _ _ _ _ _ _.
Arguments knowledge_graph {E} _.
Arguments url_queue {E} _.
Arguments visited_urls {E} _.
Arguments world {E} _.
Arguments enqueued {E} _.
Arguments dequeued {E} _.
Arguments fetched {E} _.

(** How a piece of the controller ends: normally, or by an exception that
    leaves the function; either way with the state reached. *)
Inductive Outcome (E : Type) : Type :=
| Done (st : State E)
| Raised (e : PyExn) (st : State E).
Arguments Done {E} st.
Arguments Raised {E} e st.

(** The state a piece of the controller ends in, however it ends. *)
Definition final_state {E} (o : Outcome E) : State E :=
  match o with
  | Done st => st
  | Raised _ st => st
  end.

(** Whether the piece ended normally. *)
Definition is_done {E} (o : Outcome E) : bool :=
  match o with
  | Done _ => true
  | Raised _ _ => false
  end.

(** The page cap of the [while] condition. *)
Definition PAGE_LIMIT : nat := 50.

Section Controller.
Context {E : Type}.

(** The callee the name [crawl_documentation] is bound to when the loop
    calls it: a function from URL and extraction type to a result
    dictionary, acting on the process state. *)
Variable fetch : string -> string -> World E -> Dict * World E.

Variable framework_name : string.
Variable base_url : string.
Variable depth : Z.
Variable patterns : option (list string).

(** [url_queue.pop(0)] *)
Definition pop_front (entry : string * Z) (rest : list (string * Z))
    (st : State E) : State E :=
  mkState (knowledge_graph st) rest (visited_urls st) (world st)
          (enqueued st) (dequeued st ++ [entry]) (fetched st).

(** [visited_urls.add(current_url)] *)
Definition mark_visited (current_url : string) (st : State E) : State E :=
  mkState (knowledge_graph st) (url_queue st)
          ({[current_url]} ∪ visited_urls st) (world st)
          (enqueued st) (dequeued st) (fetched st).

(** [result = await crawl_documentation(current_url, "structured")] *)
Definition call_fetch (current_url : string) (current_depth : Z)
    (st : State E) : Dict * State E :=
  let '(result, w) := fetch current_url "structured" (world st) in
  (result,
   mkState (knowledge_graph st) (url_queue st) (visited_urls st) w
           (enqueued st) (dequeued st)
           (fetched st ++ [mkFetchCall current_url current_depth (visited_urls st)])).

(** [knowledge_graph["nodes"][current_url] = node] *)
Definition add_node (current_url : string) (node : PageNode) (st : State E)
  : State E :=
  let g := knowledge_graph st in
  mkState (mkGraph (kg_framework g) (kg_base_url g)
                   (<[current_url := node]> (kg_nodes g)) (kg_relationships g))
          (url_queue st) (visited_urls st) (world st)
          (enqueued st) (dequeued st) (fetched st).

(** [url_queue.append((link, current_depth + 1))] followed by
    [knowledge_graph["relationships"].append({...})] *)
Definition enqueue_link (current_url : string) (current_depth : Z)
    (link : string) (st : State E) : State E :=
  let g := knowledge_graph st in
  mkState (mkGraph (kg_framework g) (kg_base_url g) (kg_nodes g)
                   (kg_relationships g ++ [mkEdge current_url link "references"]))
          (url_queue st ++ [(link, current_depth + 1)])
          (visited_urls st) (world st)
          (enqueued st ++ [(link, current_depth + 1)]) (dequeued st) (fetched st).

(** The [for link in ...] loop. [should_crawl_link] calls
    [link.startswith], which only a string has. *)
Fixpoint process_links (current_url : string) (current_depth : Z)
    (ls : list PyVal) (st : State E) : Outcome E :=
  match ls with
  | [] => Done st
  | VStr link :: ls' =>
      process_links current_url current_depth ls'
        (if should_crawl_link link base_url patterns
         then enqueue_link current_url current_depth link st
         else st)
  | v :: _ => Raised (AttributeError v "startswith") st
  end.

(** The condition of the [while] loop. *)
Definition loop_cond (st : State E) : bool :=
  match url_queue st with [] => false | _ :: _ => true end
  && (size (visited_urls st) <? PAGE_LIMIT)%nat.

(** One iteration of the [while] loop. *)
Definition loop_body (st : State E) : Outcome E :=
  match url_queue st with
  | [] => Raised IndexError_pop st
  | (current_url, current_depth) :: rest =>
      let st := pop_front (current_url, current_depth) rest st in
      if bool_decide (current_url ∈ visited_urls st) || (depth <? current_depth)%Z
      then Done st
      else
        let st := mark_visited current_url st in
        let '(result, st) := call_fetch current_url current_depth st in
        if py_truthy (dict_get_or result "success" VNone) then
          let content := dict_get_or result "content" (VDict []) in
          match py_get content "main_concepts" (VList []) with
          | Raise e => Raised e st
          | Ok concepts =>
              match py_get content "api_methods" (VList []) with
              | Raise e => Raised e st
              | Ok apis =>
                  let node := mkNode (dict_get_or result "title" VNone)
                                     concepts apis current_depth in
                  let st := add_node current_url node st in
                  if (current_depth <? depth)%Z then
                    match py_iter (dict_get_or result "links" (VList [])) with
                    | Raise e => Raised e st
                    | Ok ls => process_links current_url current_depth ls st
                    end
                  else Done st
              end
          end
        else Done st
  end.

(** The state before the first iteration. *)
Definition initial_state (w : World E) : State E :=
  mkState (mkGraph framework_name base_url ∅ [])
          [(base_url, 0)] ∅ w
          [(base_url, 0)] [] [].

(** What bounds the loop: the room left under the page cap, then the
    length of the queue. *)
Definition loop_measure (st : State E) : nat * nat :=
  ((PAGE_LIMIT - size (visited_urls st))%nat, length (url_queue st)).

End Controller.

(** A value together with the equation that it is the value of the
    inspected expression. *)
Definition inspect {A : Type} (a : A) : {b : A | a = b} := exist _ a eq_refl.

Section Loop.
Context {E : Type}.
Variable fetch : string -> string -> World E -> Dict * World E.
Variable base_url : string.
Variable depth : Z.
Variable patterns : option (list string).

(** The [while] loop: iterate [loop_body] as long as [loop_cond] holds and
    no exception is raised. *)
Equations? crawl_loop (st : State E) : Outcome E
  by wf (loop_measure st) (Subterm.lexprod nat nat lt lt) :=
  crawl_loop st with inspect (loop_cond st) := {
    | exist _ false _ => Done st
    | exist _ true Hcond with inspect (loop_body fetch base_url depth patterns st) := {
        | exist _ (Raised e st') _ => Raised e st'
        | exist _ (Done st') Hbody => crawl_loop st' } }.
Proof.
  assert (Hlinks : forall u d ls (s s' : State E),
             process_links base_url patterns u d ls s = Done s' ->
             visited_urls s' = visited_urls s).
  { intros u d ls. induction ls as [|v ls IH]; intros s s' H; simpl in H.
    - by inversion H.
    - destruct v; try discriminate H. apply IH in H. rewrite H.
      by destruct (should_crawl_link _ _ _). }
  unfold loop_cond in Hcond. unfold loop_body in Hbody. unfold loop_measure.
  destruct (url_queue st) as [|[u d] rest] eqn:Hq; [discriminate Hbody|].
  apply andb_true_iff in Hcond as [_ Hsize]. apply Nat.ltb_lt in Hsize.
  cbn [pop_front visited_urls] in Hbody.
  destruct (bool_decide (u ∈ visited_urls st) || (depth <? d)%Z) eqn:Hskip.
  - inversion Hbody; subst st'. cbn. apply Subterm.right_lex. lia.
  - apply orb_false_iff in Hskip as [Hin _]. apply bool_decide_eq_false in Hin.
    assert (Hgrow : (size ({[u]} ∪ visited_urls st) = S (size (visited_urls st)))%nat).
    { rewrite size_union, size_singleton; [done|]. by apply disjoint_singleton_l. }
    assert (Hv : visited_urls st' = {[u]} ∪ visited_urls st).
    { unfold call_fetch in Hbody. cbn in Hbody.
      destruct (fetch u "structured" (world st)) as [result w].
      destruct (py_truthy _); [|by inversion Hbody].
      destruct (py_get _ "main_concepts" _); [|discriminate Hbody].
      destruct (py_get _ "api_methods" _); [|discriminate Hbody].
      destruct (d <? depth)%Z; [|by inversion Hbody].
      destruct (py_iter _); [|discriminate Hbody].
      exact (Hlinks _ _ _ _ _ Hbody). }
    rewrite Hv, Hgrow. apply Subterm.left_lex. unfold PAGE_LIMIT in *. lia.
Qed.

End Loop.

Section Controller_run.
Context {E : Type}.
Variable fetch : string -> string -> World E -> Dict * World E.
Variable framework_name : string.
Variable base_url : string.
Variable depth : Z.
Variable patterns : option (list string).

(** The loop again, cut off after [fuel] iterations: the version that
    evaluates on concrete inputs. [None] means the fuel ran out. *)
Fixpoint crawl_loop_fuel (fuel : nat) (st : State E) : option (Outcome E) :=
  if loop_cond st then
    match fuel with
    | O => None
    | S fuel' =>
        match loop_body fetch base_url depth patterns st with
        | Done st' => crawl_loop_fuel fuel' st'
        | Raised e st' => Some (Raised e st')
        end
    end
  else Some (Done st).

(** The whole run of [extend_knowledge_graph], with the logs: the graph and
    the queue are set up, [init_crawler] is awaited, the loop runs. *)
Definition crawl_run (w : World E) : Outcome E :=
  let '(_, w) := init_crawler w in
  crawl_loop fetch base_url depth patterns
             (initial_state framework_name base_url w).

(** [extend_knowledge_graph]: the knowledge graph the function returns, or
    the exception that leaves it, and the process state afterwards. *)
Definition extend_knowledge_graph (w : World E) : Res KnowledgeGraph * World E :=
  match crawl_run w with
  | Done st => (Ok (knowledge_graph st), world st)
  | Raised e st => (Raise e, world st)
  end.

End Controller_run.

(** The tool as the server registers it: the loop calls the module's own
    [crawl_documentation], on top of the engine's [arun]. *)
Definition server_extend_knowledge_graph {E : Type} (arun : Arun E)
    (framework_name base_url : string) (depth : Z)
    (patterns : option (list string)) (w : World E)
  : Res KnowledgeGraph * World E :=
  extend_knowledge_graph (crawl_documentation arun)
                         framework_name base_url depth patterns w.


(** ** Vocabulary of the properties *)

(** The depth attached to the first entry for [u] in a log of queue
    entries. *)
Fixpoint first_enqueued (u : string) (l : list (string * Z)) : option Z :=
  match l with
  | [] => None
  | (u', d) :: l' => if String.eqb u' u then Some d else first_enqueued u l'
  end.

Section Vocabulary.
Context {E : Type}.
Variable fetch : string -> string -> World E -> Dict * World E.
Variable framework_name : string.
Variable base_url : string.
Variable depth : Z.
Variable patterns : option (list string).

(** The links [ls], enqueued one after the other from the page
    [current_url] at depth [current_depth]. *)
Definition enqueue_links (current_url : string) (current_depth : Z)
    (ls : list string) (st : State E) : State E :=
  foldl (fun s link => enqueue_link current_url current_depth link s) st ls.

(** The state in which the page popped from the state [st] is fetched:
    popped, marked visited, and the fetch issued. *)
Definition visit (u : string) (d : Z) (rest : list (string * Z))
    (st : State E) : Dict * State E :=
  call_fetch fetch u d (mark_visited u (pop_front (u, d) rest st)).

(** The three ways an iteration of the loop can leave the state: the entry
    is skipped; the page is fetched and nothing is added (the fetch failed,
    or reading its content raised); the page is fetched, its node added and
    some accepted links enqueued (all of them, or those handled before an
    exception). *)
Inductive body_step (st : State E) : State E -> Prop :=
| body_skip u d rest :
    url_queue st = (u, d) :: rest ->
    u ∈ visited_urls st \/ depth < d ->
    body_step st (pop_front (u, d) rest st)
| body_fetch u d rest :
    url_queue st = (u, d) :: rest ->
    u ∉ visited_urls st -> d <= depth ->
    body_step st (snd (visit u d rest st))
| body_expand u d rest node ls :
    url_queue st = (u, d) :: rest ->
    u ∉ visited_urls st -> d <= depth ->
    py_truthy (dict_get_or (fst (visit u d rest st)) "success" VNone) = true ->
    node_depth node = d ->
    (ls = [] \/ d < depth) ->
    Forall (fun l => should_crawl_link l base_url patterns = true) ls ->
    body_step st (enqueue_links u d ls (add_node u node (snd (visit u d rest st)))).

(** The states the loop passes through at its head, from [st0] on. *)
Inductive at_loop_head (st0 : State E) : State E -> Prop :=
| head_first : at_loop_head st0 st0
| head_next st st' :
    at_loop_head st0 st ->
    loop_cond st = true ->
    loop_body fetch base_url depth patterns st = Done st' ->
    at_loop_head st0 st'.

(** While the links of the page at depth [d] are being enqueued: the queue
    holds nothing shallower than [d], nothing deeper than [d + 1] was ever
    enqueued, and nothing deeper than [d] was fetched. *)
Record frontier (d : Z) (st : State E) : Prop := {
  frontier_queue : forall e, e ∈ url_queue st -> d <= snd e;
  frontier_enqueued : forall e, e ∈ enqueued st -> snd e <= d + 1;
  frontier_fetched : forall fc, fc ∈ fetched st -> fc_depth fc <= d;
  frontier_depth : 0 <= d
}.

(** What every state of a run satisfies. *)
Record crawl_inv (st : State E) : Prop := {
  inv_queue : enqueued st = (dequeued st ++ url_queue st)%list;
  inv_visited : forall u, u ∈ visited_urls st <-> u ∈ fc_url <$> fetched st;
  inv_nodup : NoDup (fc_url <$> fetched st);
  inv_cap : (size (visited_urls st) <= PAGE_LIMIT)%nat;
  inv_marked : forall fc, fc ∈ fetched st ->
      fc_url fc ∈ fc_visited fc /\ fc_depth fc <= depth;
  inv_nodes : forall u n, kg_nodes (knowledge_graph st) !! u = Some n ->
      exists fc, fc ∈ fetched st /\ fc_url fc = u /\ fc_depth fc = node_depth n;
  inv_edges : forall e, e ∈ kg_relationships (knowledge_graph st) ->
      is_Some (kg_nodes (knowledge_graph st) !! edge_from e);
  inv_header : kg_framework (knowledge_graph st) = framework_name
               /\ kg_base_url (knowledge_graph st) = base_url;
  inv_sorted_queue : StronglySorted Z.le (snd <$> url_queue st);
  inv_sorted_enqueued : StronglySorted Z.le (snd <$> enqueued st);
  inv_window : forall e e', e ∈ enqueued st -> e' ∈ url_queue st ->
      snd e <= snd e' + 1;
  inv_sorted_fetched : StronglySorted Z.le (fc_depth <$> fetched st);
  inv_behind : forall fc e', fc ∈ fetched st -> e' ∈ url_queue st ->
      fc_depth fc <= snd e';
  inv_depths : forall e, e ∈ enqueued st ->
      0 <= snd e /\ (snd e <= depth \/ snd e = 0);
  inv_dequeued : forall e, e ∈ dequeued st ->
      fst e ∈ visited_urls st \/ depth < snd e;
  inv_first : forall fc, fc ∈ fetched st ->
      first_enqueued (fc_url fc) (dequeued st) = Some (fc_depth fc)
}.

End Vocabulary.

(** ** A small site and three engines, to run the definitions on *)

Module Example.

Definition base : string := "https://x.com".
Definition page_a : string := "https://x.com/api/a".
Definition page_b : string := "https://x.com/api/b".
Definition page_c : string := "https://x.com/api/c".

(** A successful fetch result with the given hyperlinks. *)
Definition page (url : string) (ls : list string) : Dict :=
  [("url", VStr url);
   ("title", VStr "T");
   ("content", VDict [("main_concepts", VList [VStr "k"]);
                      ("api_methods", VList [])]);
   ("links", VList (map VStr ls));
   ("metadata", VDict []);
   ("success", VBool true)].

(** A callee for the controller: the base page links to [page_a] twice, to
    [page_b], to a page the filter rejects and to another host; [page_a]
    links back to the base and on to [page_c] and [page_b]; the fetch of
    [page_b] fails. *)
Definition site (url extract_type : string) (w : World unit)
  : Dict * World unit :=
  if String.eqb url base then
    (page url [page_a; page_b; "https://x.com/blog/c";
               "https://other.com/api/a"; page_a], w)
  else if String.eqb url page_a then
    (page url [base; page_c; page_b], w)
  else if String.eqb url page_c then
    (page url [page_a; "https://x.com/api/d"], w)
  else
    ([("url", VStr url); ("error", VStr "timeout"); ("success", VBool false)], w).

(** A callee for a site without end: every page links to one new page. *)
Definition endless (url extract_type : string) (w : World unit)
  : Dict * World unit :=
  (page url [url +:+ "n"], w).

Definition w0 : World unit := mkWorld None tt.

(** An engine whose [arun] raises. *)
Definition arun_timeout : Arun unit :=
  fun _ _ _ e => (Raise (mkExn "TimeoutError" "render timeout"), e).

(** An engine whose [arun] returns a result that reports failure. *)
Definition arun_unsuccessful : Arun unit :=
  fun _ _ _ e =>
    (Ok (mkCrawlResult (VDict []) (VStr EmptyString) VNone (VList []) (VBool false)), e).

(** An engine whose [arun] returns a page with two hyperlinks. *)
Definition arun_page : Arun unit :=
  fun _ _ _ e =>
    (Ok (mkCrawlResult (VDict [("title", VStr "T")]) (VStr "# T")
                       (VDict [("main_concepts", VList [VStr "k"])])
                       (VList [VStr page_a; VStr page_b]) (VBool true)), e).

End Example.

(** ** The prompt template *)

(** The newline and the double quote. *)
Definition nl : string := String (Ascii.ascii_of_nat 10) EmptyString.
Definition dq : string := String (Ascii.ascii_of_nat 34) EmptyString.

(** [analyze_framework_prompt]: the f-string, line by line. *)
Definition analyze_framework_prompt (framework_name documentation_url : string)
  : string :=
  nl +:+
  "    Please analyze the " +:+ framework_name +:+ " framework by:" +:+ nl +:+
  nl +:+
  "    1. First, use the extend_knowledge_graph tool with these parameters:" +:+ nl +:+
  "       - framework_name: " +:+ dq +:+ framework_name +:+ dq +:+ nl +:+
  "       - base_url: " +:+ dq +:+ documentation_url +:+ dq +:+ nl +:+
  "       - depth: 2" +:+ nl +:+
  "       - patterns: [" +:+ dq +:+ "/api/" +:+ dq +:+ ", "
                         +:+ dq +:+ "/guide/" +:+ dq +:+ ", "
                         +:+ dq +:+ "/tutorial/" +:+ dq +:+ "]" +:+ nl +:+
  nl +:+
  "    2. Then, summarize:" +:+ nl +:+
  "       - Core concepts and architecture" +:+ nl +:+
  "       - Main APIs and their purposes" +:+ nl +:+
  "       - Common use patterns" +:+ nl +:+
  "       - Integration points with other tools" +:+ nl +:+
  nl +:+
  "    3. Finally, suggest how this framework could be useful in our current project context." +:+ nl +:+
  "    ".

(** ** More vocabulary *)

(** The patterns [should_crawl_link] tests a link against: the caller's
    when there are any, the defaults otherwise. *)
Definition effective_patterns (patterns : option (list string)) : list string :=
  if patterns_truthy patterns then default [] patterns else default_patterns.

Definition is_dict (v : PyVal) : bool :=
  match v with
  | VDict _ => true
  | _ => false
  end.

Definition is_str (v : PyVal) : bool :=
  match v with
  | VStr _ => true
  | _ => false
  end.

(** Whether [for x in v] can run over the value. *)
Definition is_iterable (v : PyVal) : bool :=
  match v with
  | VList _ | VDict _ | VStr _ => true
  | _ => false
  end.

(** The links of a page that pass the filter, in the order of the page and
    as often as the page lists them. *)
Definition accepted_links (base_url : string) (patterns : option (list string))
    (ls : list string) : list string :=
  List.filter (fun l => should_crawl_link l base_url patterns) ls.

(** What every state of a run satisfies, about the relationships: each is
    tagged ["references"], leads to a link the filter accepts and starts at
    a node above the depth limit; and each stands for one entry appended to
    the queue, in the same order. *)
Record edges_inv {E : Type} (base_url : string) (depth : Z)
    (patterns : option (list string)) (st : State E) : Prop := {
  einv_edges : forall e, e ∈ kg_relationships (knowledge_graph st) ->
      edge_type e = "references"
      /\ should_crawl_link (edge_to e) base_url patterns = true
      /\ exists n, kg_nodes (knowledge_graph st) !! edge_from e = Some n
                   /\ node_depth n < depth;
  einv_paired : fst <$> enqueued st
                = base_url :: (edge_to <$> kg_relationships (knowledge_graph st))
}.

(** ** More engines and callees to run the definitions on *)

Module Fixtures.

(** An engine whose result has no metadata dictionary. *)
Definition arun_no_metadata : Arun unit :=
  fun _ _ _ e =>
    (Ok (mkCrawlResult VNone (VStr "# T") (VDict []) (VList []) (VBool true)), e).

(** An engine whose metadata has no title, and whose extracted content is
    a string, as a serialized extraction is. *)
Definition arun_text_content : Arun unit :=
  fun _ _ _ e =>
    (Ok (mkCrawlResult (VDict []) (VStr "# T") (VStr "{}")
                       (VList [VStr Example.page_a]) (VBool true)), e).

(** An engine that reports, as the page title, the browser of the crawler
    it is called on. *)
Definition arun_browser : Arun unit :=
  fun c _ _ e =>
    (Ok (mkCrawlResult (VDict [("title", VStr (browser_type c))]) (VStr "# T")
                       (VDict []) (VList []) (VBool true)), e).

(** A callee whose result has no content field. *)
Definition bare (url extract_type : string) (w : World unit) : Dict * World unit :=
  ([("success", VBool true)], w).

(** A callee whose result has a string as content. *)
Definition text_content (url extract_type : string) (w : World unit)
  : Dict * World unit :=
  ([("content", VStr "{}"); ("success", VBool true)], w).

(** A callee whose links field is [None]. *)
Definition no_links (url extract_type : string) (w : World unit)
  : Dict * World unit :=
  ([("links", VNone); ("success", VBool true)], w).

(** A callee whose links are an accepted link, a number, and a link. *)
Definition mixed_links (url extract_type : string) (w : World unit)
  : Dict * World unit :=
  ([("links", VList [VStr Example.page_a; VInt 7; VStr Example.page_b]);
    ("success", VBool true)], w).

End Fixtures.
(** * Properties *)

(** ** Facts about Python strings *)

Module StrFacts.
Import Str.

Lemma startswith_spec s p :
  startswith s p = true <-> exists rest, s = p +:+ rest.
Proof.
  revert s. induction p as [|c p IH]; intros s; simpl.
  - split; [intros _; by exists s | done].
  - destruct s as [|c' s]; simpl.
    + split; [intros H; discriminate H | intros [r Hr]; discriminate Hr].
    + destruct (Ascii.eqb_spec c c') as [->|Hne].
      * rewrite IH. split.
        -- intros [r ->]. by exists r.
        -- intros [r Hr]. injection Hr as ->. by exists r.
      * split; [intros H; discriminate H | intros [r Hr]; injection Hr; congruence].
Qed.

Lemma contains_spec s sub :
  contains s sub = true <-> exists pre post, s = pre +:+ sub +:+ post.
Proof.
  induction s as [|c s IH]; simpl.
  - rewrite orb_false_r, startswith_spec. split.
    + intros [r Hr]. by exists EmptyString, r.
    + intros [pre [post H]]. destruct pre; [by exists post | discriminate].
  - rewrite orb_true_iff, startswith_spec, IH. split.
    + intros [[r Hr] | [pre [post ->]]].
      * by exists EmptyString, r.
      * by exists (String c pre), post.
    + intros [pre [post H]]. destruct pre as [|c' pre]; simpl in H.
      * left. by exists post.
      * right. injection H as -> ->. by exists pre, post.
Qed.

Lemma any_in_spec ps s :
  any_in ps s = true <->
  exists p, In p ps /\ exists pre post, s = pre +:+ p +:+ post.
Proof.
  unfold any_in. rewrite existsb_exists.
  split; intros [p [Hin H]]; exists p; split; auto; by apply contains_spec.
Qed.

End StrFacts.

(** ** Iterating a string *)

(** A string without continuation bytes, an ASCII string among them, is
    iterated byte by byte. *)
Lemma utf8_chars_no_continuation (s : string) :
  forallb (fun c => negb (utf8_continuation c)) (String.list_ascii_of_string s) = true ->
  utf8_chars s
  = map (fun c => String c EmptyString) (String.list_ascii_of_string s).
Proof.
  intros H.
  assert (Hg : utf8_group s
               = (EmptyString,
                  map (fun c => String c EmptyString) (String.list_ascii_of_string s))).
  { induction s as [|c s IH]; [reflexivity|].
    simpl in H. apply andb_prop in H as [Hc Hs].
    simpl. rewrite (IH Hs). apply negb_true_iff in Hc. by rewrite Hc. }
  unfold utf8_chars. by rewrite Hg.
Qed.

(** The bytes [C3 A9] and [E2 82 AC] are one code point each. *)
Example utf8_chars_code_points :
  utf8_chars ("a" +:+ String (Ascii.ascii_of_nat 195) (String (Ascii.ascii_of_nat 169)
               ("b" +:+ String (Ascii.ascii_of_nat 226) (String (Ascii.ascii_of_nat 130)
                  (String (Ascii.ascii_of_nat 172) EmptyString)))))
  = ["a";
     String (Ascii.ascii_of_nat 195) (String (Ascii.ascii_of_nat 169) EmptyString);
     "b";
     String (Ascii.ascii_of_nat 226) (String (Ascii.ascii_of_nat 130)
       (String (Ascii.ascii_of_nat 172) EmptyString))].
Proof. reflexivity. Qed.

(** The filter's examples from the specification's testable properties. *)
Example should_crawl_link_api :
  should_crawl_link "https://x.com/api/foo" "https://x.com" None = true.
Proof. reflexivity. Qed.

Example should_crawl_link_other_host :
  should_crawl_link "https://other.com/api/foo" "https://x.com" None = false.
Proof. reflexivity. Qed.

Example should_crawl_link_blog :
  should_crawl_link "https://x.com/blog/foo" "https://x.com" (Some ["/blog/"]) = true.
Proof. reflexivity. Qed.

Example should_crawl_link_blog_api :
  should_crawl_link "https://x.com/blog/foo" "https://x.com" (Some ["/api/"]) = false.
Proof. reflexivity. Qed.

(** The prefix test is literal: no case folding, no trailing-slash
    reconciliation; an empty pattern list falls back to the defaults. *)
Example should_crawl_link_case_sensitive :
  should_crawl_link "https://X.com/api/foo" "https://x.com" None = false
  /\ should_crawl_link "https://x.com/API/foo" "https://x.com" None = false
  /\ should_crawl_link "https://x.com/api/foo" "https://x.com/" None = true
  /\ should_crawl_link "https://x.com" "https://x.com/" (Some ["x"]) = false
  /\ should_crawl_link "https://x.com/docs/a" "https://x.com" (Some []) = true.
Proof. repeat split. Qed.

(** C3: [should_crawl_link link base_url patterns] is true exactly when
    [link] has [base_url] as a literal prefix and contains, as a substring,
    one of the caller's patterns when these are provided and non-empty, one
    of the five default patterns otherwise. *)
Theorem should_crawl_link_iff link base_url patterns :
  should_crawl_link link base_url patterns = true <->
  (exists rest, link = base_url +:+ rest) /\
  (exists p, In p (match patterns with
                   | Some (q :: qs) => q :: qs
                   | _ => ["/api/"; "/guide/"; "/docs/"; "/reference/"; "/tutorial/"]
                   end)
             /\ exists pre post, link = pre +:+ p +:+ post).
Proof.
  unfold should_crawl_link.
  rewrite <- StrFacts.startswith_spec.
  destruct (Str.startswith link base_url); cbn [negb].
  - destruct patterns as [[|q qs]|]; cbn [patterns_truthy default];
      rewrite StrFacts.any_in_spec; unfold default_patterns; tauto.
  - split; [done | intros [? _]; done].
Qed.

(** ** The loop: unfolding, evaluation, termination *)

Section Loop_facts.
Context {E : Type}.
Variable fetch : string -> string -> World E -> Dict * World E.
Variable base_url : string.
Variable depth : Z.
Variable patterns : option (list string).

#[local] Abbreviation body := (loop_body fetch base_url depth patterns).
#[local] Abbreviation loop := (crawl_loop fetch base_url depth patterns).
#[local] Abbreviation loop_fuel := (crawl_loop_fuel fetch base_url depth patterns).

(** The loop is the [while] of the source: test, run the body, repeat. *)
Lemma crawl_loop_while (st : State E) :
  loop st =
  if loop_cond st then
    match body st with
    | Done st' => loop st'
    | Raised e st' => Raised e st'
    end
  else Done st.
Proof.
  rewrite crawl_loop_equation_1.
  destruct (inspect (loop_cond st)) as [[] Hc]; simpl.
  - destruct (inspect (body st)) as [[st'|e st'] Hb]; simpl; by rewrite Hc, Hb.
  - by rewrite Hc.
Qed.

(** Whatever the cut-off loop computes, the loop computes. *)
Lemma crawl_loop_fuel_sound (fuel : nat) (st : State E) (o : Outcome E) :
  loop_fuel fuel st = Some o -> loop st = o.
Proof.
  revert st. induction fuel as [|fuel IH]; intros st; simpl;
    rewrite crawl_loop_while; destruct (loop_cond st); try congruence.
  destruct (body st) as [st'|e st']; [apply IH | congruence].
Qed.

(** The loop always ends: some amount of fuel lets the cut-off loop reach
    the outcome of the loop. *)
Lemma crawl_loop_terminates (st : State E) :
  exists fuel, loop_fuel fuel st = Some (loop st).
Proof.
  funelim (crawl_loop fetch base_url depth patterns st); try congruence.
  - exists 0%nat. simpl.
    match goal with H : loop_cond st = false |- _ => by rewrite H end.
  - match goal with IH : exists _, _ |- _ => destruct IH as [fuel IH] end.
    exists (S fuel). simpl. by rewrite Hcond, Hbody.
  - exists 1%nat. simpl. rewrite Hcond.
    match goal with H : loop_body _ _ _ _ st = _ |- _ => by rewrite H end.
Qed.

(** The rule of the [while] loop. A property of states that holds before
    the loop and that every iteration keeps, whether the iteration ends
    normally or by an exception, holds of the state the loop ends in. *)
Lemma crawl_loop_invariant (I : State E -> Prop) (st : State E) :
  (forall s, I s -> loop_cond s = true -> I (final_state (body s))) ->
  I st -> I (final_state (loop st)).
Proof.
  intros Hstep. destruct (crawl_loop_terminates st) as [fuel Hfuel].
  revert Hfuel. generalize (loop st). intros o. revert st.
  induction fuel as [|fuel IH]; intros st Hrun HI; simpl in Hrun;
    destruct (loop_cond st) eqn:Hc; try congruence.
  - by inversion Hrun.
  - specialize (Hstep st HI Hc).
    destruct (body st) as [st'|e st']; simpl in Hstep.
    + by apply (IH st').
    + by inversion Hrun.
  - by inversion Hrun.
Qed.

(** When the loop ends normally its condition is false. *)
Lemma crawl_loop_exit (st st' : State E) :
  loop st = Done st' -> loop_cond st' = false.
Proof.
  destruct (crawl_loop_terminates st) as [fuel Hfuel].
  intros Hl. rewrite Hl in Hfuel. clear Hl. revert st Hfuel.
  induction fuel as [|fuel IH]; intros st Hrun; simpl in Hrun;
    destruct (loop_cond st) eqn:Hc; try congruence.
  destruct (body st) as [s|e s]; [by apply (IH s) | congruence].
Qed.

End Loop_facts.

(** ** One iteration of the loop *)

Section Body_facts.
Context {E : Type}.
Variable fetch : string -> string -> World E -> Dict * World E.
Variable base_url : string.
Variable depth : Z.
Variable patterns : option (list string).

#[local] Abbreviation body := (loop_body fetch base_url depth patterns).

Lemma enqueue_links_cons u d l ls (st : State E) :
  enqueue_links u d (l :: ls) st = enqueue_links u d ls (enqueue_link u d l st).
Proof. reflexivity. Qed.

(** What enqueueing links does to each variable: entries go to the back of
    the queue with depth one greater, edges to the back of the
    relationships; nothing else changes. *)
Lemma enqueue_links_fields u d ls (st : State E) :
  let st' := enqueue_links u d ls st in
  url_queue st' = (url_queue st ++ map (fun l => (l, d + 1)) ls)%list
  /\ enqueued st' = (enqueued st ++ map (fun l => (l, d + 1)) ls)%list
  /\ kg_relationships (knowledge_graph st')
     = (kg_relationships (knowledge_graph st)
        ++ map (fun l => mkEdge u l "references") ls)%list
  /\ kg_nodes (knowledge_graph st') = kg_nodes (knowledge_graph st)
  /\ kg_framework (knowledge_graph st') = kg_framework (knowledge_graph st)
  /\ kg_base_url (knowledge_graph st') = kg_base_url (knowledge_graph st)
  /\ visited_urls st' = visited_urls st
  /\ dequeued st' = dequeued st
  /\ fetched st' = fetched st
  /\ world st' = world st.
Proof.
  revert st. induction ls as [|l ls IH]; intros st; cbn zeta.
  - cbn. by rewrite !app_nil_r.
  - rewrite enqueue_links_cons.
    destruct (IH (enqueue_link u d l st)) as (H1&H2&H3&H4&H5&H6&H7&H8&H9&H10).
    rewrite H1, H2, H3, H4, H5, H6, H7, H8, H9, H10. cbn.
    by rewrite <- !app_assoc.
Qed.

(** The [for] loop enqueues some of the links, each accepted by the
    filter, and does nothing else. *)
Lemma process_links_shape u d vs (st : State E) :
  exists ls,
    final_state (process_links base_url patterns u d vs st) = enqueue_links u d ls st
    /\ Forall (fun l => should_crawl_link l base_url patterns = true) ls.
Proof.
  revert st. induction vs as [|v vs IH]; intros st; simpl.
  - by exists [].
  - destruct v; try (by exists []).
    destruct (should_crawl_link s base_url patterns) eqn:Hs.
    + destruct (IH (enqueue_link u d s st)) as [ls [Heq Hall]].
      exists (s :: ls). split; [done | by constructor].
    + apply IH.
Qed.

(** An iteration leaves the state in one of the three ways of
    [body_step]. *)
Lemma loop_body_step (st : State E) :
  url_queue st <> [] ->
  body_step fetch base_url depth patterns st (final_state (body st)).
Proof.
  intros Hne. unfold loop_body.
  destruct (url_queue st) as [|[u d] rest] eqn:Hq; [done|].
  cbn [pop_front visited_urls].
  destruct (bool_decide (u ∈ visited_urls st)) eqn:Hin; simpl.
  { apply bool_decide_eq_true in Hin. apply body_skip; auto. }
  apply bool_decide_eq_false in Hin.
  destruct (depth <? d)%Z eqn:Hd.
  { apply Z.ltb_lt in Hd. apply body_skip; auto. }
  apply Z.ltb_ge in Hd.
  pose proof (body_fetch fetch base_url depth patterns st u d rest Hq Hin Hd) as Hfetch.
  pose proof (body_expand fetch base_url depth patterns st u d rest) as Hexpand.
  unfold visit in *.
  destruct (call_fetch fetch u d (mark_visited u (pop_front (u, d) rest st)))
    as [result st2]; simpl in *.
  destruct (py_truthy (dict_get_or result "success" VNone)) eqn:Hsucc; [|done].
  destruct (py_get _ "main_concepts" _) as [concepts|e]; [|done].
  destruct (py_get _ "api_methods" _) as [apis|e]; [|done].
  set (node := mkNode _ _ _ _).
  specialize (Hexpand node).
  destruct (d <? depth)%Z eqn:Hlt.
  - apply Z.ltb_lt in Hlt.
    destruct (py_iter _) as [vs|e]; simpl.
    + destruct (process_links_shape u d vs (add_node u node st2)) as [ls [-> Hall]].
      by apply Hexpand; auto.
    + by apply (Hexpand []); auto.
  - by apply (Hexpand []); auto.
Qed.

(** Entries are taken from the front of the queue: an iteration pops the
    first entry and may only add to the back. *)
Lemma body_step_queue (st st' : State E) :
  body_step fetch base_url depth patterns st st' ->
  exists u d rest ls,
    url_queue st = (u, d) :: rest
    /\ dequeued st' = (dequeued st ++ [(u, d)])%list
    /\ url_queue st' = (rest ++ map (fun l => (l, d + 1)) ls)%list
    /\ enqueued st' = (enqueued st ++ map (fun l => (l, d + 1)) ls)%list.
Proof.
  intros [u d rest Hq _ | u d rest Hq _ _ | u d rest node ls Hq _ _ _ _ _ _];
    exists u, d, rest.
  - exists []. by rewrite !app_nil_r.
  - exists []. unfold visit, call_fetch; simpl.
    destruct (fetch _ _ _); simpl. by rewrite !app_nil_r.
  - exists ls.
    destruct (enqueue_links_fields u d ls (add_node u node (snd (visit fetch u d rest st))))
      as (H1&H2&_&_&_&_&_&H8&_).
    rewrite H1, H2, H8. unfold visit, call_fetch; simpl.
    by destruct (fetch _ _ _).
Qed.

End Body_facts.

(** ** The invariant of the run *)

Lemma StronglySorted_snoc {A} (R : A -> A -> Prop) (l : list A) (x : A) :
  StronglySorted R l -> (forall a, a ∈ l -> R a x) ->
  StronglySorted R (l ++ [x]).
Proof.
  intros Hl Hx. apply StronglySorted_app. repeat split; [|done|].
  - intros a b Ha Hb. apply list_elem_of_singleton in Hb as ->. by apply Hx.
  - repeat constructor.
Qed.

Lemma StronglySorted_lookup {A} (R : A -> A -> Prop) (l : list A) i j a b :
  StronglySorted R l -> (i < j)%nat ->
  l !! i = Some a -> l !! j = Some b -> R a b.
Proof.
  intros Hl. revert i j. induction Hl as [|x l Hl IH Hx]; intros i j Hij Hi Hj.
  - done.
  - destruct j as [|j]; [lia|]. destruct i as [|i]; simpl in *.
    + injection Hi as <-. rewrite Forall_forall in Hx.
      apply Hx. by eapply list_elem_of_lookup_2.
    + apply (IH i j); [lia | done | done].
Qed.

Lemma first_enqueued_app_Some u d (l l' : list (string * Z)) :
  first_enqueued u l = Some d -> first_enqueued u (l ++ l') = Some d.
Proof.
  induction l as [|[u' d'] l IH]; simpl; [done|].
  by destruct (String.eqb u' u).
Qed.

Lemma first_enqueued_app_None u (l l' : list (string * Z)) :
  (forall e, e ∈ l -> fst e <> u) ->
  first_enqueued u (l ++ l') = first_enqueued u l'.
Proof.
  induction l as [|[u' d'] l IH]; simpl; intros H; [done|].
  destruct (String.eqb_spec u' u) as [->|_].
  - exfalso. apply (H (u, d')); [left | done].
  - apply IH. intros e He. apply H. by right.
Qed.

Section Invariant.
Context {E : Type}.
Variable fetch : string -> string -> World E -> Dict * World E.
Variable framework_name : string.
Variable base_url : string.
Variable depth : Z.
Variable patterns : option (list string).

#[local] Abbreviation Inv := (crawl_inv framework_name base_url depth).

Lemma crawl_inv_initial (w : World E) :
  Inv (initial_state framework_name base_url w).
Proof.
  clear fetch patterns.
  constructor; cbn.
  all: try done.
  all: try (by repeat constructor).
  all: try (intros; match goal with H : _ ∈ [] |- _ => by apply elem_of_nil in H end).
  - intros u. set_solver.
  - intros e e' He He'. apply list_elem_of_singleton in He as ->.
    apply list_elem_of_singleton in He' as ->. simpl. lia.
  - intros e He. apply list_elem_of_singleton in He as ->. simpl. lia.
Qed.

(** Facts about the entry at the front of the queue. *)
Lemma crawl_inv_front (st : State E) u d rest :
  Inv st -> url_queue st = (u, d) :: rest ->
  (forall e, e ∈ rest -> d <= snd e)
  /\ (u, d) ∈ enqueued st
  /\ (forall e, e ∈ rest -> e ∈ enqueued st)
  /\ (forall e, e ∈ dequeued st -> e ∈ enqueued st)
  /\ StronglySorted Z.le (snd <$> rest).
Proof.
  intros HI Hq. pose proof (inv_sorted_queue _ _ _ _ HI) as Hs.
  pose proof (inv_queue _ _ _ _ HI) as Henq.
  rewrite Hq in Hs, Henq. cbn in Hs. apply StronglySorted_cons in Hs as [Hle Hs].
  rewrite Forall_forall in Hle. rewrite Henq. repeat split; [| | | |done].
  - intros e He. apply Hle. by apply list_elem_of_fmap_2.
  - apply elem_of_app. right. left.
  - intros e He. apply elem_of_app. right. by right.
  - intros e He. apply elem_of_app. by left.
Qed.

(** Skipping an entry keeps the invariant. *)
Lemma crawl_inv_skip (st : State E) u d rest :
  Inv st -> url_queue st = (u, d) :: rest ->
  u ∈ visited_urls st \/ depth < d ->
  Inv (pop_front (u, d) rest st).
Proof.
  intros HI Hq Hskip.
  destruct (crawl_inv_front st u d rest HI Hq) as (Hle & Hin & Hrest & Hdeq & Hsorted).
  destruct HI as [Hqueue Hvis Hnodup Hcap Hmark Hnodes Hedges Hhead
                   Hsq Hse Hwin Hsf Hbeh Hdep Hdq Hfirst].
  constructor; cbn; try done.
  - rewrite Hqueue, Hq. by rewrite <- app_assoc.
  - intros e e' He He'. apply Hwin; [done|]. rewrite Hq. by right.
  - intros fc e' Hfc He'. apply Hbeh; [done|]. rewrite Hq. by right.
  - intros e He. apply elem_of_app in He as [He|He]; [by apply Hdq|].
    by apply list_elem_of_singleton in He as ->.
  - intros fc Hfc. by apply first_enqueued_app_Some, Hfirst.
Qed.

(** Fetching the page at the front of the queue keeps the invariant; the
    state is then ready for the page's links. *)
Lemma crawl_inv_visit (st : State E) u d rest :
  Inv st -> url_queue st = (u, d) :: rest ->
  u ∉ visited_urls st -> d <= depth ->
  (size (visited_urls st) < PAGE_LIMIT)%nat ->
  let st' := snd (visit fetch u d rest st) in
  Inv st' /\ frontier d st'
  /\ (exists fc, fc ∈ fetched st' /\ fc_url fc = u /\ fc_depth fc = d)
  /\ knowledge_graph st' = knowledge_graph st.
Proof.
  intros HI Hq Hnew Hd Hsize.
  destruct (crawl_inv_front st u d rest HI Hq) as (Hle & Hin & Hrest & Hdeq & Hsorted).
  destruct HI as [Hqueue Hvis Hnodup Hcap Hmark Hnodes Hedges Hhead
                   Hsq Hse Hwin Hsf Hbeh Hdep Hdq Hfirst].
  assert (Hhd : (u, d) ∈ url_queue st) by (rewrite Hq; left).
  assert (Hfresh : forall e, e ∈ dequeued st -> fst e <> u).
  { intros e He Heq. destruct (Hdq e He) as [Hv|Hlt]; [by rewrite Heq in Hv|].
    destruct (Hdep e (Hdeq e He)) as [_ [?|H0]]; [lia|].
    destruct (Hdep (u, d) Hin) as [? _]. simpl in *. lia. }
  unfold visit, call_fetch. cbn.
  destruct (fetch u "structured" (world st)) as [result w]. cbn.
  split; [|split; [|split]].
  - constructor; cbn; try done.
    + rewrite Hqueue, Hq. by rewrite <- app_assoc.
    + intros u'. rewrite fmap_app, elem_of_app, elem_of_union, elem_of_singleton.
      cbn. rewrite list_elem_of_singleton, <- Hvis. tauto.
    + rewrite fmap_app. apply NoDup_app. repeat split; [done| |by apply NoDup_singleton].
      intros u' Hu' Heq. cbn in Heq. apply list_elem_of_singleton in Heq as ->.
      by apply Hvis in Hu'.
    + rewrite size_union, size_singleton by (by apply disjoint_singleton_l). lia.
    + intros fc Hfc. apply elem_of_app in Hfc as [Hfc|Hfc]; [by apply Hmark|].
      apply list_elem_of_singleton in Hfc as ->. cbn. split; [|done].
      apply elem_of_union_l. by apply elem_of_singleton.
    + intros u' n Hn. destruct (Hnodes u' n Hn) as (fc & Hfc & Hu & Hdn).
      exists fc. split; [|done]. apply elem_of_app. by left.
    + intros e e' He He'. apply Hwin; [done|]. rewrite Hq. by right.
    + rewrite fmap_app. apply StronglySorted_snoc; [done|].
      intros a Ha. apply list_elem_of_fmap in Ha as (fc & -> & Hfc).
      by apply (Hbeh fc (u, d)).
    + intros fc e' Hfc He'. apply elem_of_app in Hfc as [Hfc|Hfc].
      * apply Hbeh; [done|]. rewrite Hq. by right.
      * apply list_elem_of_singleton in Hfc as ->. cbn. by apply Hle.
    + intros e He. apply elem_of_app in He as [He|He].
      * destruct (Hdq e He) as [?|?]; [left; by apply elem_of_union_r | by right].
      * apply list_elem_of_singleton in He as ->. left.
        apply elem_of_union_l. by apply elem_of_singleton.
    + intros fc Hfc. apply elem_of_app in Hfc as [Hfc|Hfc].
      * by apply first_enqueued_app_Some, Hfirst.
      * apply list_elem_of_singleton in Hfc as ->. cbn.
        rewrite first_enqueued_app_None by done. cbn. by rewrite String.eqb_refl.
  - constructor; cbn.
    + done.
    + intros e He. by apply (Hwin e (u, d)).
    + intros fc Hfc. apply elem_of_app in Hfc as [Hfc|Hfc].
      * by apply (Hbeh fc (u, d)).
      * by apply list_elem_of_singleton in Hfc as ->.
    + by destruct (Hdep (u, d) Hin).
  - eexists. split; [apply elem_of_app; right; left|done].
  - done.
Qed.

(** Adding the node of a page that was fetched keeps the invariant. *)
Lemma crawl_inv_add_node (st : State E) u node :
  Inv st ->
  (exists fc, fc ∈ fetched st /\ fc_url fc = u /\ fc_depth fc = node_depth node) ->
  Inv (add_node u node st).
Proof.
  intros HI Hfc.
  destruct HI as [Hqueue Hvis Hnodup Hcap Hmark Hnodes Hedges Hhead
                   Hsq Hse Hwin Hsf Hbeh Hdep Hdq Hfirst].
  constructor; cbn; try done.
  - intros u' n Hn. destruct (decide (u = u')) as [<-|Hne].
    + rewrite lookup_insert_eq in Hn. by injection Hn as <-.
    + rewrite lookup_insert_ne in Hn by done. by apply Hnodes.
  - intros e He. destruct (decide (u = edge_from e)) as [<-|Hne].
    + rewrite lookup_insert_eq. by eexists.
    + rewrite lookup_insert_ne by done. by apply Hedges.
Qed.

Lemma frontier_add_node (st : State E) d u node :
  frontier d st -> frontier d (add_node u node st).
Proof. intros [? ? ? ?]. by constructor. Qed.

(** Enqueueing a link of the page [u] at depth [d] keeps the invariant. *)
Lemma crawl_inv_enqueue_link (st : State E) u d l :
  Inv st -> frontier d st -> d < depth ->
  is_Some (kg_nodes (knowledge_graph st) !! u) ->
  Inv (enqueue_link u d l st) /\ frontier d (enqueue_link u d l st).
Proof.
  intros HI [Fq Fe Ff Fd] Hd Hnode.
  destruct HI as [Hqueue Hvis Hnodup Hcap Hmark Hnodes Hedges Hhead
                   Hsq Hse Hwin Hsf Hbeh Hdep Hdq Hfirst].
  assert (Hsub : forall e, e ∈ url_queue st -> e ∈ enqueued st).
  { intros e He. rewrite Hqueue. apply elem_of_app. by right. }
  split.
  - constructor; cbn; try done.
    + rewrite Hqueue. by rewrite <- app_assoc.
    + intros e He. apply elem_of_app in He as [He|He]; [by apply Hedges|].
      by apply list_elem_of_singleton in He as ->.
    + rewrite fmap_app. apply StronglySorted_snoc; [done|].
      intros a Ha. apply list_elem_of_fmap in Ha as (e & -> & He).
      by apply Fe, Hsub.
    + rewrite fmap_app. apply StronglySorted_snoc; [done|].
      intros a Ha. apply list_elem_of_fmap in Ha as (e & -> & He).
      by apply Fe.
    + intros e e' He He'.
      assert (snd e <= d + 1).
      { apply elem_of_app in He as [He|He]; [by apply Fe|].
        apply list_elem_of_singleton in He as ->. simpl. lia. }
      assert (d <= snd e').
      { apply elem_of_app in He' as [He'|He']; [by apply Fq|].
        apply list_elem_of_singleton in He' as ->. simpl. lia. }
      lia.
    + intros fc e' Hfc He'. specialize (Ff fc Hfc).
      apply elem_of_app in He' as [He'|He']; [specialize (Fq e' He'); lia|].
      apply list_elem_of_singleton in He' as ->. simpl. lia.
    + intros e He. apply elem_of_app in He as [He|He]; [by apply Hdep|].
      apply list_elem_of_singleton in He as ->. simpl. lia.
  - constructor; cbn; try done.
    + intros e He. apply elem_of_app in He as [He|He]; [by apply Fq|].
      apply list_elem_of_singleton in He as ->. simpl. lia.
    + intros e He. apply elem_of_app in He as [He|He]; [by apply Fe|].
      apply list_elem_of_singleton in He as ->. simpl. lia.
Qed.

Lemma crawl_inv_enqueue_links (st : State E) u d ls :
  Inv st -> frontier d st -> (ls = [] \/ d < depth) ->
  is_Some (kg_nodes (knowledge_graph st) !! u) ->
  Inv (enqueue_links u d ls st).
Proof.
  intros HI HF [->|Hd] Hnode; [done|].
  revert st HI HF Hnode. induction ls as [|l ls IH]; intros st HI HF Hnode; [done|].
  rewrite enqueue_links_cons.
  destruct (crawl_inv_enqueue_link st u d l HI HF Hd Hnode) as [HI' HF'].
  by apply IH.
Qed.

(** Every iteration of the loop keeps the invariant. *)
Lemma crawl_inv_step (st st' : State E) :
  Inv st -> loop_cond st = true ->
  body_step fetch base_url depth patterns st st' -> Inv st'.
Proof.
  intros HI Hc Hstep. unfold loop_cond in Hc.
  apply andb_true_iff in Hc as [_ Hsize]. apply Nat.ltb_lt in Hsize.
  destruct Hstep as [u d rest Hq Hskip | u d rest Hq Hnew Hd
                    | u d rest node ls Hq Hnew Hd Hsucc Hnd Hls Hall].
  - by apply crawl_inv_skip.
  - by apply crawl_inv_visit.
  - destruct (crawl_inv_visit st u d rest HI Hq Hnew Hd Hsize) as (HI' & HF & Hfc & _).
    apply crawl_inv_enqueue_links; [|by apply frontier_add_node|done|].
    + apply crawl_inv_add_node; [done|]. by rewrite Hnd.
    + cbn. rewrite lookup_insert_eq. by eexists.
Qed.

(** The invariant holds of the state the loop ends in, however it ends. *)
Lemma crawl_inv_final (st : State E) :
  Inv st -> Inv (final_state (crawl_loop fetch base_url depth patterns st)).
Proof.
  apply crawl_loop_invariant. intros s HI Hc.
  eapply crawl_inv_step; [done|done|].
  apply loop_body_step. unfold loop_cond in Hc. by destruct (url_queue s).
Qed.

(** ... and of every state at the head of the loop. *)
Lemma crawl_inv_head (st0 st : State E) :
  Inv st0 -> at_loop_head fetch base_url depth patterns st0 st -> Inv st.
Proof.
  intros HI0 Hh. induction Hh as [|s s' Hh IH Hc Hb]; [done|].
  eapply crawl_inv_step; [exact IH|done|].
  replace s' with (final_state (loop_body fetch base_url depth patterns s))
    by (by rewrite Hb).
  apply loop_body_step. unfold loop_cond in Hc. by destruct (url_queue s).
Qed.

(** The loop from any state at its head ends as the whole loop does. *)
Lemma at_loop_head_loop (st0 st : State E) :
  at_loop_head fetch base_url depth patterns st0 st ->
  crawl_loop fetch base_url depth patterns st
  = crawl_loop fetch base_url depth patterns st0.
Proof.
  intros Hh. induction Hh as [|s s' Hh IH Hc Hb]; [done|].
  rewrite <- IH. rewrite (crawl_loop_while _ _ _ _ s). by rewrite Hc, Hb.
Qed.

(** A node, once in the graph, is there unchanged after any iteration. *)
Lemma body_step_nodes (st st' : State E) u n :
  Inv st ->
  body_step fetch base_url depth patterns st st' ->
  kg_nodes (knowledge_graph st) !! u = Some n ->
  kg_nodes (knowledge_graph st') !! u = Some n.
Proof.
  intros HI Hstep Hn.
  assert (Hvis : u ∈ visited_urls st).
  { destruct (inv_nodes _ _ _ _ HI u n Hn) as (fc & Hfc & <- & _).
    apply (inv_visited _ _ _ _ HI). by apply list_elem_of_fmap_2. }
  destruct Hstep as [u' d rest Hq Hskip | u' d rest Hq Hnew Hd
                    | u' d rest node ls Hq Hnew Hd Hsucc Hnd Hls Hall].
  - done.
  - unfold visit, call_fetch. cbn. by destruct (fetch _ _ _).
  - destruct (enqueue_links_fields u' d ls
                (add_node u' node (snd (visit fetch u' d rest st))))
      as (_&_&_&->&_).
    unfold visit, call_fetch. cbn. destruct (fetch _ _ _). cbn.
    rewrite lookup_insert_ne; [done|]. by intros ->.
Qed.

End Invariant.

(** ** Running the controller *)

Section Run_facts.
Context {E : Type}.
Variable fetch : string -> string -> World E -> Dict * World E.
Variable framework_name : string.
Variable base_url : string.
Variable depth : Z.
Variable patterns : option (list string).

#[local] Abbreviation run := (crawl_run fetch framework_name base_url depth patterns).
#[local] Abbreviation start w := (initial_state framework_name base_url (snd (init_crawler w))).

Lemma crawl_run_loop (w : World E) :
  run w = crawl_loop fetch base_url depth patterns (start w).
Proof. unfold crawl_run. by destruct (init_crawler w). Qed.

(** The run is what the cut-off loop computes from the initial state. *)
Lemma crawl_run_fuel (fuel : nat) (w : World E) (o : Outcome E) :
  crawl_loop_fuel fetch base_url depth patterns fuel (start w) = Some o ->
  run w = o.
Proof. rewrite crawl_run_loop. apply crawl_loop_fuel_sound. Qed.

(** To prove a property of the run, prove it of what the cut-off loop
    computes. *)
Lemma crawl_run_fuel_elim (fuel : nat) (w : World E) (P : Outcome E -> Prop) :
  match crawl_loop_fuel fetch base_url depth patterns fuel (start w) with
  | Some o => P o
  | None => False
  end -> P (run w).
Proof.
  destruct (crawl_loop_fuel _ _ _ _ _ _) as [o|] eqn:H; [|done].
  by rewrite (crawl_run_fuel _ _ _ H).
Qed.

(** The invariant holds of the state the run ends in. *)
Lemma crawl_run_inv (w : World E) :
  crawl_inv framework_name base_url depth (final_state (run w)).
Proof.
  rewrite crawl_run_loop. apply crawl_inv_final. apply crawl_inv_initial.
Qed.

(** The graph [extend_knowledge_graph] returns is the graph of the state
    the run ends in. *)
Lemma extend_knowledge_graph_returns (w w' : World E) (g : KnowledgeGraph) :
  extend_knowledge_graph fetch framework_name base_url depth patterns w = (Ok g, w') ->
  g = knowledge_graph (final_state (run w)).
Proof.
  unfold extend_knowledge_graph. destruct (run w); simpl; congruence.
Qed.

(** An iteration that leaves the queue empty is the last one. *)
Lemma crawl_loop_last (st st' : State E) :
  loop_cond st = true ->
  loop_body fetch base_url depth patterns st = Done st' ->
  url_queue st' = [] ->
  crawl_loop fetch base_url depth patterns st = Done st'.
Proof.
  intros Hc Hb Hq. rewrite crawl_loop_while, Hc, Hb.
  rewrite crawl_loop_while. unfold loop_cond. by rewrite Hq.
Qed.

End Run_facts.


Lemma outcome_done {E : Type} (o : Outcome E) :
  is_done o = true -> o = Done (final_state o).
Proof. by destruct o. Qed.
(** ** The crawl controller: the properties of the specification *)

(** Evaluate a run of the controller on a concrete site. *)
Ltac eval_run fuel :=
  match goal with
  | |- context [crawl_run ?f ?fw ?b ?d ?p ?w] =>
      pattern (crawl_run f fw b d p w);
      apply (crawl_run_fuel_elim f fw b d p fuel w);
      vm_compute
  end.

(** C1: within one invocation the fetch operation is called at most once
    per URL. The call log of the run has no URL twice; at every call the
    URL is already in the visited set; and an entry whose URL is in the
    visited set is skipped: the iteration only pops it and issues no
    fetch. *)
Theorem fetch_at_most_once {E : Type}
    (fetch : string -> string -> World E -> Dict * World E)
    (framework_name base_url : string) (depth : Z)
    (patterns : option (list string)) (w : World E) :
  NoDup (fc_url <$> fetched
           (final_state (crawl_run fetch framework_name base_url depth patterns w)))
  /\ (forall fc,
        fc ∈ fetched
               (final_state (crawl_run fetch framework_name base_url depth patterns w)) ->
        fc_url fc ∈ fc_visited fc)
  /\ (forall (st : State E) u d rest,
        url_queue st = (u, d) :: rest ->
        u ∈ visited_urls st ->
        loop_body fetch base_url depth patterns st = Done (pop_front (u, d) rest st)
        /\ fetched (pop_front (u, d) rest st) = fetched st).
Proof.
  pose proof (crawl_run_inv fetch framework_name base_url depth patterns w) as HI.
  split; [apply (inv_nodup _ _ _ _ HI)|]. split.
  - intros fc Hfc. by apply (inv_marked _ _ _ _ HI).
  - intros st u d rest Hq Hin. split; [|done].
    unfold loop_body. rewrite Hq. cbn [pop_front visited_urls].
    by rewrite bool_decide_eq_true_2.
Qed.

Lemma fetch_at_most_once_witness :
  fc_url <$> fetched (final_state (crawl_run Example.site "docs" Example.base 2 None Example.w0))
  = [Example.base; Example.page_a; Example.page_b; Example.page_c]
  /\ NoDup (fc_url <$> fetched
              (final_state (crawl_run Example.site "docs" Example.base 2 None Example.w0)))
  /\ loop_body Example.site Example.base 2 None
       (mkState (mkGraph "docs" Example.base ∅ []) [(Example.base, 1)]
                {[Example.base]} Example.w0 [] [] [])
     = Done (mkState (mkGraph "docs" Example.base ∅ []) []
                     {[Example.base]} Example.w0 [] [(Example.base, 1)] []).
Proof.
  split; [eval_run 10%nat; reflexivity|].
  split; [apply (fetch_at_most_once Example.site "docs" Example.base 2 None Example.w0)|].
  refine (proj1 (proj2 (proj2
    (fetch_at_most_once Example.site "docs" Example.base 2 None Example.w0))
    (mkState (mkGraph "docs" Example.base ∅ []) [(Example.base, 1)]
             {[Example.base]} Example.w0 [] [] [])
    Example.base 1 [] eq_refl _)).
  by apply elem_of_singleton.
Defined.

Lemma loop_cond_false_iff {E : Type} (st : State E) :
  loop_cond st = false <->
  url_queue st = [] \/ (PAGE_LIMIT <= size (visited_urls st))%nat.
Proof.
  unfold loop_cond. rewrite andb_false_iff, Nat.ltb_ge.
  destruct (url_queue st); split; intros [?|?]; auto; done.
Qed.

(** C2: when the loop ends the visited set has at most 50 URLs; a loop
    that ends normally ends with the queue empty or with 50 URLs visited;
    and at the head of the loop, in every state the run passes through, the
    loop stops exactly when the queue is empty or 50 URLs are visited. *)
Theorem visited_at_most_50 {E : Type}
    (fetch : string -> string -> World E -> Dict * World E)
    (framework_name base_url : string) (depth : Z)
    (patterns : option (list string)) (w : World E) :
  (size (visited_urls
           (final_state (crawl_run fetch framework_name base_url depth patterns w)))
   <= 50)%nat
  /\ (forall st,
        crawl_run fetch framework_name base_url depth patterns w = Done st ->
        url_queue st = [] \/ size (visited_urls st) = 50%nat)
  /\ (forall st,
        at_loop_head fetch base_url depth patterns
          (initial_state framework_name base_url (snd (init_crawler w))) st ->
        (size (visited_urls st) <= 50)%nat
        /\ (loop_cond st = false <->
            url_queue st = [] \/ size (visited_urls st) = 50%nat)).
Proof.
  pose proof (crawl_run_inv fetch framework_name base_url depth patterns w) as HI.
  split; [apply (inv_cap _ _ _ _ HI)|]. split.
  - intros st Hrun. rewrite Hrun in HI. simpl in HI.
    rewrite crawl_run_loop in Hrun. apply crawl_loop_exit in Hrun.
    apply loop_cond_false_iff in Hrun as [?|Hge]; [by left|right].
    pose proof (inv_cap _ _ _ _ HI). unfold PAGE_LIMIT in *. lia.
  - intros st Hh.
    assert (Hcap : (size (visited_urls st) <= PAGE_LIMIT)%nat).
    { eapply inv_cap, crawl_inv_head; [|exact Hh]. apply crawl_inv_initial. }
    split; [done|]. rewrite loop_cond_false_iff. unfold PAGE_LIMIT in *.
    split; (intros [?|?]; [by left | right; lia]).
Qed.

Lemma visited_at_most_50_witness :
  crawl_run Example.endless "docs" "/" 100 (Some ["/"]) Example.w0
  = Done (final_state
            (crawl_run Example.endless "docs" "/" 100 (Some ["/"]) Example.w0))
  /\ url_queue (final_state
        (crawl_run Example.endless "docs" "/" 100 (Some ["/"]) Example.w0)) <> []
  /\ (url_queue (final_state
        (crawl_run Example.endless "docs" "/" 100 (Some ["/"]) Example.w0)) = []
      \/ size (visited_urls (final_state
           (crawl_run Example.endless "docs" "/" 100 (Some ["/"]) Example.w0)))
         = 50%nat).
Proof.
  assert (Hrun : crawl_run Example.endless "docs" "/" 100 (Some ["/"]) Example.w0
                 = Done (final_state
                    (crawl_run Example.endless "docs" "/" 100 (Some ["/"]) Example.w0))).
  { apply outcome_done. eval_run 60%nat. reflexivity. }
  split; [exact Hrun|]. split.
  - eval_run 60%nat. discriminate.
  - exact (proj1 (proj2
      (visited_at_most_50 Example.endless "docs" "/" 100 (Some ["/"]) Example.w0))
      _ Hrun).
Defined.

(** C4: entries leave the queue at the front in the order they entered
    it, and links enter at the back with the depth of the current page plus
    one; so the depths of the popped entries, and of the pages fetched,
    never decrease along the run, and a page at a smaller depth is fetched
    before any page at a greater depth. *)
Theorem breadth_first_order {E : Type}
    (fetch : string -> string -> World E -> Dict * World E)
    (framework_name base_url : string) (depth : Z)
    (patterns : option (list string)) (w : World E) :
  enqueued (final_state (crawl_run fetch framework_name base_url depth patterns w))
  = (dequeued (final_state (crawl_run fetch framework_name base_url depth patterns w))
     ++ url_queue (final_state (crawl_run fetch framework_name base_url depth patterns w)))%list
  /\ (forall (i j : nat) (e e' : string * Z),
        (i < j)%nat ->
        dequeued (final_state (crawl_run fetch framework_name base_url depth patterns w))
          !! i = Some e ->
        dequeued (final_state (crawl_run fetch framework_name base_url depth patterns w))
          !! j = Some e' ->
        snd e <= snd e')
  /\ (forall (i j : nat) (d d' : Z),
        (i < j)%nat ->
        (fc_depth <$> fetched
           (final_state (crawl_run fetch framework_name base_url depth patterns w)))
          !! i = Some d ->
        (fc_depth <$> fetched
           (final_state (crawl_run fetch framework_name base_url depth patterns w)))
          !! j = Some d' ->
        d <= d')
  /\ (forall (i j : nat) (d d' : Z),
        (fc_depth <$> fetched
           (final_state (crawl_run fetch framework_name base_url depth patterns w)))
          !! i = Some d ->
        (fc_depth <$> fetched
           (final_state (crawl_run fetch framework_name base_url depth patterns w)))
          !! j = Some d' ->
        d < d' -> (i < j)%nat)
  /\ (forall st : State E,
        loop_cond st = true ->
        exists u d rest ls,
          url_queue st = (u, d) :: rest
          /\ dequeued (final_state (loop_body fetch base_url depth patterns st))
             = (dequeued st ++ [(u, d)])%list
          /\ url_queue (final_state (loop_body fetch base_url depth patterns st))
             = (rest ++ map (fun l => (l, d + 1)) ls)%list
          /\ enqueued (final_state (loop_body fetch base_url depth patterns st))
             = (enqueued st ++ map (fun l => (l, d + 1)) ls)%list).
Proof.
  pose proof (crawl_run_inv fetch framework_name base_url depth patterns w) as HI.
  set (st := final_state _) in *.
  assert (Hsorted : forall (i j : nat) d d', (i < j)%nat ->
            (fc_depth <$> fetched st) !! i = Some d ->
            (fc_depth <$> fetched st) !! j = Some d' -> d <= d').
  { intros i j d d'. apply StronglySorted_lookup, (inv_sorted_fetched _ _ _ _ HI). }
  split; [apply (inv_queue _ _ _ _ HI)|]. split; [|split; [|split]].
  - intros i j e e' Hij Hi Hj.
    pose proof (inv_sorted_enqueued _ _ _ _ HI) as Hs.
    rewrite (inv_queue _ _ _ _ HI), fmap_app in Hs.
    apply StronglySorted_app_1_l in Hs.
    apply (StronglySorted_lookup _ _ i j (snd e) (snd e') Hs Hij);
      rewrite list_lookup_fmap; [by rewrite Hi | by rewrite Hj].
  - exact Hsorted.
  - intros i j d d' Hi Hj Hlt.
    destruct (decide (i < j)%nat) as [|Hge]; [done|].
    destruct (decide (i = j)) as [->|Hne]; [rewrite Hi in Hj; injection Hj; lia|].
    assert (d' <= d) by (apply (Hsorted j i); [lia|done|done]). lia.
  - intros s Hc. eapply body_step_queue.
    apply loop_body_step. unfold loop_cond in Hc. by destruct (url_queue s).
Qed.

Lemma breadth_first_order_witness :
  (fc_depth <$> fetched
     (final_state (crawl_run Example.site "docs" Example.base 2 None Example.w0)))
  = [0; 1; 1; 2]
  /\ dequeued (final_state (crawl_run Example.site "docs" Example.base 2 None Example.w0))
     = [(Example.base, 0); (Example.page_a, 1); (Example.page_b, 1);
        (Example.page_a, 1); (Example.page_c, 2); (Example.page_b, 2)]
  /\ 1 <= 2.
Proof.
  assert (H : (fc_depth <$> fetched
     (final_state (crawl_run Example.site "docs" Example.base 2 None Example.w0)))
     = [0; 1; 1; 2]).
  { eval_run 10%nat. reflexivity. }
  split; [exact H|]. split; [eval_run 10%nat; reflexivity|].
  refine (proj1 (proj2 (proj2
    (breadth_first_order Example.site "docs" Example.base 2 None Example.w0)))
    2%nat 3%nat 1 2 _ _ _); [lia | by rewrite H | by rewrite H].
Defined.

(** C5: every node of the graph has a recorded depth of at most the
    [depth] parameter, in the state the run ends in and so in the graph
    [extend_knowledge_graph] returns; an entry popped with a greater depth is
    skipped and the graph is left as it was. *)
Theorem node_depth_at_most_depth {E : Type}
    (fetch : string -> string -> World E -> Dict * World E)
    (framework_name base_url : string) (depth : Z)
    (patterns : option (list string)) (w : World E) :
  (forall u n,
      kg_nodes (knowledge_graph
        (final_state (crawl_run fetch framework_name base_url depth patterns w)))
        !! u = Some n ->
      node_depth n <= depth)
  /\ (forall g w',
        extend_knowledge_graph fetch framework_name base_url depth patterns w
        = (Ok g, w') ->
        forall u n, kg_nodes g !! u = Some n -> node_depth n <= depth)
  /\ (forall (st : State E) u d rest,
        url_queue st = (u, d) :: rest ->
        depth < d ->
        loop_body fetch base_url depth patterns st = Done (pop_front (u, d) rest st)
        /\ knowledge_graph (pop_front (u, d) rest st) = knowledge_graph st).
Proof.
  pose proof (crawl_run_inv fetch framework_name base_url depth patterns w) as HI.
  assert (Hnodes : forall u n,
      kg_nodes (knowledge_graph
        (final_state (crawl_run fetch framework_name base_url depth patterns w)))
        !! u = Some n -> node_depth n <= depth).
  { intros u n Hn. destruct (inv_nodes _ _ _ _ HI u n Hn) as (fc & Hfc & _ & <-).
    by apply (inv_marked _ _ _ _ HI). }
  split; [exact Hnodes|]. split.
  - intros g w' Hret u n. rewrite (extend_knowledge_graph_returns _ _ _ _ _ _ _ _ Hret).
    apply Hnodes.
  - intros st u d rest Hq Hd. split; [|done].
    unfold loop_body. rewrite Hq. cbn [pop_front visited_urls].
    apply Z.ltb_lt in Hd. rewrite Hd. by rewrite orb_true_r.
Qed.

Lemma node_depth_at_most_depth_witness :
  kg_nodes (knowledge_graph
    (final_state (crawl_run Example.site "docs" Example.base 2 None Example.w0)))
    !! Example.page_c
  = Some (mkNode (VStr "T") (VList [VStr "k"]) (VList []) 2)
  /\ node_depth (mkNode (VStr "T") (VList [VStr "k"]) (VList []) 2) <= 2.
Proof.
  assert (H : kg_nodes (knowledge_graph
    (final_state (crawl_run Example.site "docs" Example.base 2 None Example.w0)))
    !! Example.page_c
    = Some (mkNode (VStr "T") (VList [VStr "k"]) (VList []) 2)).
  { eval_run 10%nat. reflexivity. }
  split; [exact H|].
  exact (proj1 (node_depth_at_most_depth Example.site "docs" Example.base 2 None
                  Example.w0) _ _ H).
Defined.

(** C6: when the fetch of the page at the front of the queue reports no
    success, the iteration ends normally and leaves the graph as it was,
    nodes and relationships, and enqueues nothing; and when the fetch of the
    base URL reports no success, [extend_knowledge_graph] returns the graph
    with no node and no relationship. *)
Theorem failed_fetch_adds_nothing {E : Type}
    (fetch : string -> string -> World E -> Dict * World E)
    (framework_name base_url : string) (depth : Z)
    (patterns : option (list string)) (w : World E) :
  (forall (st : State E) u d rest,
      url_queue st = (u, d) :: rest ->
      u ∉ visited_urls st ->
      d <= depth ->
      py_truthy (dict_get_or (fst (fetch u "structured" (world st))) "success" VNone)
      = false ->
      exists st',
        loop_body fetch base_url depth patterns st = Done st'
        /\ knowledge_graph st' = knowledge_graph st
        /\ url_queue st' = rest
        /\ enqueued st' = enqueued st
        /\ fc_url <$> fetched st' = ((fc_url <$> fetched st) ++ [u])%list)
  /\ (py_truthy (dict_get_or
         (fst (fetch base_url "structured" (snd (init_crawler w)))) "success" VNone)
      = false ->
      exists w',
        extend_knowledge_graph fetch framework_name base_url depth patterns w
        = (Ok (mkGraph framework_name base_url ∅ []), w')).
Proof.
  assert (Hfail : forall (st : State E) u d rest,
      url_queue st = (u, d) :: rest ->
      u ∉ visited_urls st ->
      d <= depth ->
      py_truthy (dict_get_or (fst (fetch u "structured" (world st))) "success" VNone)
      = false ->
      exists st',
        loop_body fetch base_url depth patterns st = Done st'
        /\ knowledge_graph st' = knowledge_graph st
        /\ url_queue st' = rest
        /\ enqueued st' = enqueued st
        /\ fc_url <$> fetched st' = ((fc_url <$> fetched st) ++ [u])%list).
  { intros st u d rest Hq Hin Hd Hsucc.
    unfold loop_body. rewrite Hq. cbn [pop_front visited_urls].
    rewrite bool_decide_eq_false_2 by done.
    apply Z.ltb_ge in Hd. rewrite Hd. cbn [orb].
    unfold call_fetch. cbn [mark_visited pop_front world].
    destruct (fetch u "structured" (world st)) as [result w1].
    cbn [fst] in Hsucc. cbn beta iota zeta.
    rewrite Hsucc. eexists. split; [reflexivity|]. cbn. by rewrite fmap_app. }
  split; [exact Hfail|].
  intros Hsucc. unfold extend_knowledge_graph. rewrite crawl_run_loop.
  set (st0 := initial_state framework_name base_url (snd (init_crawler w))).
  destruct (decide (depth < 0)) as [Hneg|Hpos].
  - rewrite (crawl_loop_last fetch base_url depth patterns st0
               (pop_front (base_url, 0) [] st0)); [by eexists|done| |done].
    unfold loop_body. cbn. apply Z.ltb_lt in Hneg. by rewrite Hneg.
  - destruct (Hfail st0 base_url 0 []) as (st' & Hb & Hg & Hq & _); try done; [lia|].
    rewrite (crawl_loop_last fetch base_url depth patterns st0 st'); try done.
    rewrite Hg. by eexists.
Qed.

Lemma failed_fetch_adds_nothing_witness :
  py_truthy (dict_get_or
    (fst (Example.site Example.page_b "structured" (snd (init_crawler Example.w0))))
    "success" VNone) = false
  /\ exists w',
       extend_knowledge_graph Example.site "docs" Example.page_b 2 None Example.w0
       = (Ok (mkGraph "docs" Example.page_b ∅ []), w').
Proof.
  split; [reflexivity|].
  apply (failed_fetch_adds_nothing Example.site "docs" Example.page_b 2 None Example.w0).
  reflexivity.
Defined.

(** C10: with a negative [depth] the entry of the base URL is skipped
    before it is marked visited or fetched: no fetch is issued, nothing is
    visited, and [extend_knowledge_graph] returns the graph with its
    framework and base URL, no node and no relationship. *)
Theorem negative_depth_returns_empty_graph {E : Type}
    (fetch : string -> string -> World E -> Dict * World E)
    (framework_name base_url : string) (depth : Z)
    (patterns : option (list string)) (w : World E) :
  depth < 0 ->
  extend_knowledge_graph fetch framework_name base_url depth patterns w
  = (Ok (mkGraph framework_name base_url ∅ []), snd (init_crawler w))
  /\ fetched (final_state (crawl_run fetch framework_name base_url depth patterns w)) = []
  /\ visited_urls
       (final_state (crawl_run fetch framework_name base_url depth patterns w)) = ∅.
Proof.
  intros Hneg. unfold extend_knowledge_graph. rewrite crawl_run_loop.
  set (st0 := initial_state framework_name base_url (snd (init_crawler w))).
  rewrite (crawl_loop_last fetch base_url depth patterns st0
             (pop_front (base_url, 0) [] st0)); [done|done| |done].
  unfold loop_body. cbn. apply Z.ltb_lt in Hneg. by rewrite Hneg.
Qed.

Lemma negative_depth_returns_empty_graph_witness :
  -1 < 0
  /\ extend_knowledge_graph Example.site "docs" Example.base (-1) None Example.w0
     = (Ok (mkGraph "docs" Example.base ∅ []),
        mkWorld (Some (mkCrawler "chromium" true false)) tt).
Proof.
  split; [lia|].
  apply (negative_depth_returns_empty_graph Example.site "docs" Example.base (-1)
           None Example.w0).
  lia.
Defined.

(** A node of a state that satisfies the invariant is still there,
    unchanged, when the loop started from that state ends. *)
Lemma crawl_loop_keeps_nodes {E : Type}
    (fetch : string -> string -> World E -> Dict * World E)
    (framework_name base_url : string) (depth : Z)
    (patterns : option (list string)) (st : State E) u n :
  crawl_inv framework_name base_url depth st ->
  kg_nodes (knowledge_graph st) !! u = Some n ->
  kg_nodes (knowledge_graph
    (final_state (crawl_loop fetch base_url depth patterns st))) !! u = Some n.
Proof.
  intros HI Hn.
  apply (crawl_loop_invariant fetch base_url depth patterns
           (fun s => crawl_inv framework_name base_url depth s
                     /\ kg_nodes (knowledge_graph s) !! u = Some n) st);
    [|done].
  intros s [HIs Hs] Hc.
  assert (Hstep : body_step fetch base_url depth patterns s
                    (final_state (loop_body fetch base_url depth patterns s))).
  { apply loop_body_step. unfold loop_cond in Hc. by destruct (url_queue s). }
  split.
  - by eapply crawl_inv_step.
  - by eapply body_step_nodes.
Qed.

(** C8: the depth of a node is the depth of the first entry ever enqueued
    for its URL; and a node that is in the graph at some head of the loop is
    in the graph, unchanged, at every later head of the loop and in the state
    the run ends in. *)
Theorem node_depth_first_enqueued {E : Type}
    (fetch : string -> string -> World E -> Dict * World E)
    (framework_name base_url : string) (depth : Z)
    (patterns : option (list string)) (w : World E) :
  (forall u n,
      kg_nodes (knowledge_graph
        (final_state (crawl_run fetch framework_name base_url depth patterns w)))
        !! u = Some n ->
      first_enqueued u
        (enqueued
           (final_state (crawl_run fetch framework_name base_url depth patterns w)))
      = Some (node_depth n))
  /\ (forall (st : State E) u n,
        at_loop_head fetch base_url depth patterns
          (initial_state framework_name base_url (snd (init_crawler w))) st ->
        kg_nodes (knowledge_graph st) !! u = Some n ->
        first_enqueued u (enqueued st) = Some (node_depth n)
        /\ (forall st',
              at_loop_head fetch base_url depth patterns st st' ->
              kg_nodes (knowledge_graph st') !! u = Some n)
        /\ kg_nodes (knowledge_graph
             (final_state (crawl_run fetch framework_name base_url depth patterns w)))
             !! u = Some n).
Proof.
  assert (Hfirst : forall st : State E,
            crawl_inv framework_name base_url depth st ->
            forall u n, kg_nodes (knowledge_graph st) !! u = Some n ->
                        first_enqueued u (enqueued st) = Some (node_depth n)).
  { intros st HI u n Hn.
    destruct (inv_nodes _ _ _ _ HI u n Hn) as (fc & Hfc & <- & <-).
    rewrite (inv_queue _ _ _ _ HI).
    by apply first_enqueued_app_Some, (inv_first _ _ _ _ HI). }
  split.
  - apply Hfirst, crawl_run_inv.
  - intros st u n Hh Hn.
    assert (HI : crawl_inv framework_name base_url depth st).
    { eapply crawl_inv_head; [|exact Hh]. apply crawl_inv_initial. }
    split; [by apply Hfirst|]. split.
    + intros st' Hh'. revert Hn.
      induction Hh' as [|s s' Hh' IH Hc Hb]; [done|]. intros Hn.
      assert (HIs : crawl_inv framework_name base_url depth s)
        by (by eapply crawl_inv_head).
      eapply body_step_nodes; [exact HIs| |by apply IH].
      replace s' with (final_state (loop_body fetch base_url depth patterns s))
        by (by rewrite Hb).
      apply loop_body_step. unfold loop_cond in Hc. by destruct (url_queue s).
    + rewrite crawl_run_loop.
      rewrite <- (at_loop_head_loop _ _ _ _ _ _ Hh).
      by eapply crawl_loop_keeps_nodes.
Qed.

Lemma node_depth_first_enqueued_witness :
  enqueued (final_state (crawl_run Example.site "docs" Example.base 2 None Example.w0))
  = [(Example.base, 0); (Example.page_a, 1); (Example.page_b, 1);
     (Example.page_a, 1); (Example.page_c, 2); (Example.page_b, 2)]
  /\ kg_nodes (knowledge_graph
       (final_state (crawl_run Example.site "docs" Example.base 2 None Example.w0)))
       !! Example.page_a
     = Some (mkNode (VStr "T") (VList [VStr "k"]) (VList []) 1)
  /\ first_enqueued Example.page_a
       (enqueued
          (final_state (crawl_run Example.site "docs" Example.base 2 None Example.w0)))
     = Some 1.
Proof.
  assert (H : kg_nodes (knowledge_graph
       (final_state (crawl_run Example.site "docs" Example.base 2 None Example.w0)))
       !! Example.page_a
     = Some (mkNode (VStr "T") (VList [VStr "k"]) (VList []) 1)).
  { eval_run 10%nat. reflexivity. }
  split; [eval_run 10%nat; reflexivity|]. split; [exact H|].
  exact (proj1 (node_depth_first_enqueued Example.site "docs" Example.base 2 None
                  Example.w0) _ _ H).
Defined.

(** ** The page fetcher adapter *)

(** C7, as the code has it: every result of [crawl_documentation] has the
    fields [url] and [success]. When the engine call and the lookup of the
    title complete, the result also has [title], [content], [links] and
    [metadata], its [success] is the flag the engine reported, true or
    false, and it has no [error] field. When either raises an exception, the
    result is exactly the three fields [url], [error] (the text of the
    exception) and [success] set to false, without [title] and without
    [metadata]. In both cases the function returns a dictionary: nothing is
    raised to the caller. *)
Theorem crawl_documentation_result {E : Type} (arun : Arun E)
    (url extract_type : string) (w : World E) :
  dict_get (fst (crawl_documentation arun url extract_type w)) "url" = Some (VStr url)
  /\ has_key (fst (crawl_documentation arun url extract_type w)) "success" = true
  /\ match fst (arun (fst (init_crawler w)) url (extraction_config extract_type)
                     (engine (snd (init_crawler w)))) with
     | Raise e =>
         fst (crawl_documentation arun url extract_type w)
         = [("url", VStr url); ("error", VStr (exn_str e)); ("success", VBool false)]
     | Ok result =>
         match py_get (metadata result) "title" (VStr EmptyString) with
         | Raise e =>
             fst (crawl_documentation arun url extract_type w)
             = [("url", VStr url); ("error", VStr (exn_str e));
                ("success", VBool false)]
         | Ok title =>
             map fst (fst (crawl_documentation arun url extract_type w))
             = ["url"; "title"; "content"; "links"; "metadata"; "success"]
             /\ dict_get (fst (crawl_documentation arun url extract_type w)) "title"
                = Some title
             /\ dict_get (fst (crawl_documentation arun url extract_type w)) "metadata"
                = Some (metadata result)
             /\ dict_get (fst (crawl_documentation arun url extract_type w)) "success"
                = Some (success result)
             /\ has_key (fst (crawl_documentation arun url extract_type w)) "error"
                = false
         end
     end.
Proof.
  unfold crawl_documentation.
  destruct (init_crawler w) as [c w1]. cbn [fst snd].
  destruct (arun c url (extraction_config extract_type) (engine w1)) as [[result|e] e'];
    cbn [fst]; [|done].
  destruct (py_get (metadata result) "title" (VStr EmptyString)) as [title|e]; [|done].
  repeat split.
Qed.

(** C7 as the specification states it fails when the engine raises: the
    result then has the three fields of the failure branch, and neither
    [title] nor [metadata]. *)
Lemma crawl_documentation_failure_counterexample :
  fst (crawl_documentation Example.arun_timeout "https://x.com" "markdown" Example.w0)
  = [("url", VStr "https://x.com"); ("error", VStr "render timeout");
     ("success", VBool false)]
  /\ has_key (fst (crawl_documentation Example.arun_timeout "https://x.com" "markdown"
                     Example.w0)) "title" = false
  /\ has_key (fst (crawl_documentation Example.arun_timeout "https://x.com" "markdown"
                     Example.w0)) "metadata" = false.
Proof. repeat split. Qed.

(** An engine result that reports failure without raising goes through the
    normal branch: [success] is false and there is no [error] field. *)
Example crawl_documentation_reported_failure :
  dict_get (fst (crawl_documentation Example.arun_unsuccessful "https://x.com"
                   "markdown" Example.w0)) "success" = Some (VBool false)
  /\ has_key (fst (crawl_documentation Example.arun_unsuccessful "https://x.com"
                     "markdown" Example.w0)) "error" = false
  /\ has_key (fst (crawl_documentation Example.arun_unsuccessful "https://x.com"
                     "markdown" Example.w0)) "title" = true.
Proof. repeat split. Qed.

(** The fields of a result for each extraction type: [links] carries the
    engine's hyperlinks only for the type ["links"]. *)
Example crawl_documentation_links :
  dict_get (fst (crawl_documentation Example.arun_page "https://x.com" "links"
                   Example.w0)) "links"
  = Some (VList [VStr Example.page_a; VStr Example.page_b])
  /\ dict_get (fst (crawl_documentation Example.arun_page "https://x.com" "structured"
                      Example.w0)) "links"
     = Some (VList [])
  /\ dict_get (fst (crawl_documentation Example.arun_page "https://x.com" "markdown"
                      Example.w0)) "content"
     = Some (VStr "# T")
  /\ dict_get (fst (crawl_documentation Example.arun_page "https://x.com" "structured"
                      Example.w0)) "content"
     = Some (VDict [("main_concepts", VList [VStr "k"])]).
Proof. repeat split. Qed.

(** For the extraction type the controller asks for, the result never
    carries hyperlinks. *)
Lemma crawl_documentation_structured_links {E : Type} (arun : Arun E)
    (url : string) (w : World E) :
  dict_get_or (fst (crawl_documentation arun url "structured" w)) "links" (VList [])
  = VList [].
Proof.
  unfold crawl_documentation.
  destruct (init_crawler w) as [c w1].
  destruct (arun c url (extraction_config "structured") (engine w1)) as [[result|e] e'];
    [|done].
  by destruct (py_get (metadata result) "title" (VStr EmptyString)).
Qed.

(** ** The controller on top of the module's own fetcher *)

(** With a callee whose results carry no hyperlinks the crawl never leaves
    the base URL: nothing is enqueued beyond the first entry, no
    relationship is recorded, and only the base URL can have a node. *)
Lemma crawl_without_links {E : Type}
    (fetch : string -> string -> World E -> Dict * World E)
    (framework_name base_url : string) (depth : Z)
    (patterns : option (list string)) (w : World E) :
  (forall u w',
      dict_get_or (fst (fetch u "structured" w')) "links" (VList []) = VList []) ->
  enqueued (final_state (crawl_run fetch framework_name base_url depth patterns w))
  = [(base_url, 0)]
  /\ kg_relationships (knowledge_graph
       (final_state (crawl_run fetch framework_name base_url depth patterns w))) = []
  /\ (forall u,
        is_Some (kg_nodes (knowledge_graph
          (final_state (crawl_run fetch framework_name base_url depth patterns w)))
          !! u) ->
        u = base_url).
Proof.
  intros Hlinks. rewrite crawl_run_loop.
  set (st0 := initial_state framework_name base_url (snd (init_crawler w))).
  assert (Hbody :
    url_queue (final_state (loop_body fetch base_url depth patterns st0)) = []
    /\ enqueued (final_state (loop_body fetch base_url depth patterns st0))
       = [(base_url, 0)]
    /\ kg_relationships (knowledge_graph
         (final_state (loop_body fetch base_url depth patterns st0))) = []
    /\ (forall u,
          is_Some (kg_nodes (knowledge_graph
            (final_state (loop_body fetch base_url depth patterns st0))) !! u) ->
          u = base_url)).
  { assert (Hempty : forall u : string,
              is_Some ((∅ : gmap string PageNode) !! u) -> u = base_url).
    { intros u [n Hn]. by rewrite lookup_empty in Hn. }
    unfold loop_body. cbn.
    destruct (depth <? 0)%Z; [done|].
    unfold call_fetch. cbn.
    specialize (Hlinks base_url (snd (init_crawler w))).
    destruct (fetch base_url "structured" (snd (init_crawler w))) as [result w1].
    cbn [fst] in Hlinks. cbn beta iota zeta.
    destruct (py_truthy _); [|done].
    destruct (py_get _ "main_concepts" _) as [concepts|e]; [|done].
    destruct (py_get _ "api_methods" _) as [apis|e]; [|done].
    assert (Hnode : forall (node : PageNode) (u : string),
              is_Some ((<[base_url := node]> (∅ : gmap string PageNode)) !! u) ->
              u = base_url).
    { intros node u [n Hn]. destruct (decide (base_url = u)) as [|Hne]; [done|].
      by rewrite lookup_insert_ne, lookup_empty in Hn. }
    destruct (0 <? depth)%Z.
    - rewrite Hlinks. cbn. repeat split. apply Hnode.
    - cbn. repeat split. apply Hnode. }
  rewrite crawl_loop_while. change (loop_cond st0) with true. cbv iota.
  destruct (loop_body fetch base_url depth patterns st0) as [st'|e st'];
    cbn [final_state] in *; [|by destruct Hbody as (_&?&?&?)].
  rewrite crawl_loop_while. unfold loop_cond.
  destruct Hbody as (->&?&?&?). done.
Qed.

(** X23: the tool as the server registers it never follows a link. The
    module's own [crawl_documentation] passes hyperlinks on only for the
    extraction type ["links"], and the controller asks for ["structured"];
    so every graph the tool returns has no relationship, and no node but,
    possibly, the base URL. *)
Lemma server_crawl_stays_on_base_url {E : Type} (arun : Arun E)
    (framework_name base_url : string) (depth : Z)
    (patterns : option (list string)) (w w' : World E) (g : KnowledgeGraph) :
  server_extend_knowledge_graph arun framework_name base_url depth patterns w
  = (Ok g, w') ->
  kg_relationships g = []
  /\ (forall u, is_Some (kg_nodes g !! u) -> u = base_url).
Proof.
  unfold server_extend_knowledge_graph. intros Hret.
  rewrite (extend_knowledge_graph_returns _ _ _ _ _ _ _ _ Hret).
  apply crawl_without_links. intros u w1.
  apply crawl_documentation_structured_links.
Qed.

(** ** Relationships and their end points *)

(** The loop of the controller records a relationship for every accepted
    hyperlink, also when its target never gets a node: on a callee that
    reports hyperlinks, here [Example.site], the returned graph has a
    relationship to a page whose fetch failed. *)
Example controller_edge_to_missing_node :
  exists g w',
    extend_knowledge_graph Example.site "docs" Example.base 2 None Example.w0
    = (Ok g, w')
    /\ exists e, e ∈ kg_relationships g /\ kg_nodes g !! edge_to e = None.
Proof.
  unfold extend_knowledge_graph.
  assert (Hdone : is_done (crawl_run Example.site "docs" Example.base 2 None Example.w0)
                  = true) by (eval_run 10%nat; reflexivity).
  rewrite (outcome_done _ Hdone). eexists _, _. split; [reflexivity|].
  exists (mkEdge Example.base Example.page_b "references"). split.
  - eval_run 10%nat. apply list_elem_of_further, list_elem_of_here.
  - eval_run 10%nat. reflexivity.
Qed.



(** * Further properties of the code *)

(** ** The link filter *)

Lemma startswith_refl_app (b rest : string) : Str.startswith (b +:+ rest) b = true.
Proof. apply StrFacts.startswith_spec. by exists rest. Qed.

Lemma string_app_assoc (a b c : string) : (a +:+ b) +:+ c = a +:+ (b +:+ c).
Proof.
  induction a as [|x a IH]; [reflexivity|].
  change (String x ((a +:+ b) +:+ c) = String x (a +:+ (b +:+ c))).
  by rewrite IH.
Qed.

(** The filter, split into its two tests. *)
Lemma should_crawl_link_tests link base_url patterns :
  should_crawl_link link base_url patterns
  = Str.startswith link base_url
    && Str.any_in (effective_patterns patterns) link.
Proof.
  unfold should_crawl_link, effective_patterns.
  destruct (Str.startswith link base_url); [|done].
  by destruct (patterns_truthy patterns).
Qed.

(** X1: the filter accepts more when it is given more patterns: a link
    accepted for one pattern argument is accepted for every pattern argument
    whose effective patterns include those of the first. *)
Theorem should_crawl_link_more_patterns link base_url patterns patterns' :
  (forall p, In p (effective_patterns patterns) ->
             In p (effective_patterns patterns')) ->
  should_crawl_link link base_url patterns = true ->
  should_crawl_link link base_url patterns' = true.
Proof.
  intros Hsub. rewrite !should_crawl_link_tests, !andb_true_iff.
  intros [Hpre Hany]. split; [done|].
  apply StrFacts.any_in_spec in Hany as (p & Hp & Hin).
  apply StrFacts.any_in_spec. exists p. auto.
Qed.

Lemma should_crawl_link_more_patterns_witness :
  should_crawl_link "https://x.com/guide/start" "https://x.com"
    (Some ["/api/"; "/guide/"; "/tutorial/"]) = true
  /\ should_crawl_link "https://x.com/guide/start" "https://x.com" None = true.
Proof.
  split; [reflexivity|].
  apply (should_crawl_link_more_patterns "https://x.com/guide/start" "https://x.com"
           (Some ["/api/"; "/guide/"; "/tutorial/"]) None).
  - cbn. intuition.
  - reflexivity.
Defined.

(** X2: the pattern test runs over the whole link, the base URL included:
    when the base URL itself contains one of the effective patterns, an
    empty pattern for one, every link under the base URL is accepted. *)
Theorem should_crawl_link_pattern_in_base base_url patterns p rest :
  In p (effective_patterns patterns) ->
  Str.contains base_url p = true ->
  should_crawl_link (base_url +:+ rest) base_url patterns = true.
Proof.
  intros Hp Hc. rewrite should_crawl_link_tests, startswith_refl_app. cbn [andb].
  apply StrFacts.any_in_spec. exists p. split; [done|].
  apply StrFacts.contains_spec in Hc as (pre & post & ->).
  exists pre, (post +:+ rest). by rewrite !string_app_assoc.
Qed.

Lemma should_crawl_link_pattern_in_base_witness :
  In "/docs/" (effective_patterns None)
  /\ Str.contains "https://x.com/docs/" "/docs/" = true
  /\ should_crawl_link ("https://x.com/docs/" +:+ "blog/2024/post")
       "https://x.com/docs/" None = true.
Proof.
  assert (H1 : In "/docs/" (effective_patterns None)) by (cbn; intuition).
  assert (H2 : Str.contains "https://x.com/docs/" "/docs/" = true) by reflexivity.
  split; [exact H1|]. split; [exact H2|].
  exact (should_crawl_link_pattern_in_base "https://x.com/docs/" None "/docs/"
           "blog/2024/post" H1 H2).
Defined.

(** X3: a link accepted under a base URL is accepted under every prefix of
    that base URL. *)
Theorem should_crawl_link_shorter_base link base_url base_url' patterns :
  Str.startswith base_url base_url' = true ->
  should_crawl_link link base_url patterns = true ->
  should_crawl_link link base_url' patterns = true.
Proof.
  intros Hb. rewrite !should_crawl_link_tests, !andb_true_iff.
  intros [Hpre Hany]. split; [|done].
  apply StrFacts.startswith_spec in Hb as [r' ->].
  apply StrFacts.startswith_spec in Hpre as [r ->].
  apply StrFacts.startswith_spec. exists (r' +:+ r). by rewrite string_app_assoc.
Qed.

Lemma should_crawl_link_shorter_base_witness :
  Str.startswith "https://x.com/v2/" "https://x.com" = true
  /\ should_crawl_link "https://x.com/v2/api/a" "https://x.com/v2/" None = true
  /\ should_crawl_link "https://x.com/v2/api/a" "https://x.com" None = true.
Proof.
  split; [reflexivity|]. split; [reflexivity|].
  apply (should_crawl_link_shorter_base "https://x.com/v2/api/a" "https://x.com/v2/"
           "https://x.com" None); reflexivity.
Defined.

(** ** The crawler instance *)

(** X4: [init_crawler] is idempotent. After a call the module-level
    variable holds the crawler the call returned and the outside world is
    untouched; a second call returns the same crawler and changes nothing;
    a crawler that is already there is returned as it is. *)
Theorem init_crawler_idempotent {E : Type} (w : World E) :
  crawler (snd (init_crawler w)) = Some (fst (init_crawler w))
  /\ engine (snd (init_crawler w)) = engine w
  /\ init_crawler (snd (init_crawler w))
     = (fst (init_crawler w), snd (init_crawler w))
  /\ (forall c, crawler w = Some c -> init_crawler w = (c, w))
  /\ (crawler w = None ->
      fst (init_crawler w) = mkCrawler "chromium" true false).
Proof.
  unfold init_crawler. destruct w as [[c|] e]; cbn.
  - repeat split; [|done]. by intros c' [= <-].
  - repeat split; done.
Qed.

Lemma init_crawler_idempotent_witness :
  crawler (mkWorld (Some (mkCrawler "firefox" false true)) tt)
  = Some (mkCrawler "firefox" false true)
  /\ init_crawler (mkWorld (Some (mkCrawler "firefox" false true)) tt)
     = (mkCrawler "firefox" false true,
        mkWorld (Some (mkCrawler "firefox" false true)) tt).
Proof.
  split; [reflexivity|].
  apply (proj1 (proj2 (proj2 (proj2
    (init_crawler_idempotent (mkWorld (Some (mkCrawler "firefox" false true)) tt)))))).
  reflexivity.
Defined.

(** ** The page fetcher adapter, further *)

(** The result of [crawl_documentation] when the engine returns a result
    whose metadata has a [get]. *)
Lemma crawl_documentation_ok {E : Type} (arun : Arun E)
    (url extract_type : string) (w : World E) result e' title :
  arun (fst (init_crawler w)) url (extraction_config extract_type)
       (engine (snd (init_crawler w))) = (Ok result, e') ->
  py_get (metadata result) "title" (VStr EmptyString) = Ok title ->
  crawl_documentation arun url extract_type w
  = ([("url", VStr url);
      ("title", title);
      ("content", if String.eqb extract_type "markdown"
                  then markdown result else extracted_content result);
      ("links", if String.eqb extract_type "links"
                then links result else VList []);
      ("metadata", metadata result);
      ("success", success result)],
     mkWorld (crawler (snd (init_crawler w))) e').
Proof.
  intros Harun Htitle. unfold crawl_documentation.
  destruct (init_crawler w) as [c w1]. cbn [fst snd] in *.
  by rewrite Harun, Htitle.
Qed.

(** X5: an extraction type other than the three known ones is served with
    the markdown configuration, yet the content of the result is the
    engine's extracted content, not its markdown, and the links are
    empty. *)
Theorem crawl_documentation_unknown_type {E : Type} (arun : Arun E)
    (url extract_type : string) (w : World E) result e' title :
  extract_type <> "markdown" ->
  extract_type <> "structured" ->
  extract_type <> "links" ->
  arun (fst (init_crawler w)) url MarkdownOutput (engine (snd (init_crawler w)))
  = (Ok result, e') ->
  py_get (metadata result) "title" (VStr EmptyString) = Ok title ->
  extraction_config extract_type = MarkdownOutput
  /\ dict_get (fst (crawl_documentation arun url extract_type w)) "content"
     = Some (extracted_content result)
  /\ dict_get (fst (crawl_documentation arun url extract_type w)) "links"
     = Some (VList []).
Proof.
  intros Hm Hs Hl Harun Htitle.
  apply String.eqb_neq in Hm, Hs, Hl.
  assert (Hcfg : extraction_config extract_type = MarkdownOutput).
  { unfold extraction_config. by rewrite Hm, Hs, Hl. }
  split; [done|].
  rewrite (crawl_documentation_ok arun url extract_type w result e' title)
    by (by rewrite ?Hcfg).
  cbn. by rewrite Hm, Hl.
Qed.

Lemma crawl_documentation_unknown_type_witness :
  dict_get (fst (crawl_documentation Example.arun_page "https://x.com" "text"
                   Example.w0)) "content"
  = Some (VDict [("main_concepts", VList [VStr "k"])])
  /\ extraction_config "text" = MarkdownOutput.
Proof.
  destruct (crawl_documentation_unknown_type Example.arun_page "https://x.com" "text"
              Example.w0
              (mkCrawlResult (VDict [("title", VStr "T")]) (VStr "# T")
                 (VDict [("main_concepts", VList [VStr "k"])])
                 (VList [VStr Example.page_a; VStr Example.page_b]) (VBool true))
              tt (VStr "T")) as (H1 & H2 & _);
    [discriminate | discriminate | discriminate | reflexivity | reflexivity |].
  split; [exact H2 | exact H1].
Defined.

(** X6: only the extraction type ["links"] passes the engine's hyperlinks
    on. For every other type the links of the result are empty, whatever
    the engine did; for ["links"] they are the engine's, and the content is
    the extracted content. *)
Theorem crawl_documentation_links_only_for_links {E : Type} (arun : Arun E)
    (url extract_type : string) (w : World E) :
  (extract_type <> "links" ->
   dict_get_or (fst (crawl_documentation arun url extract_type w)) "links" (VList [])
   = VList [])
  /\ (forall result e' title,
        arun (fst (init_crawler w)) url LinkExtraction (engine (snd (init_crawler w)))
        = (Ok result, e') ->
        py_get (metadata result) "title" (VStr EmptyString) = Ok title ->
        dict_get (fst (crawl_documentation arun url "links" w)) "links"
        = Some (links result)
        /\ dict_get (fst (crawl_documentation arun url "links" w)) "content"
           = Some (extracted_content result)).
Proof.
  split.
  - intros Hl. apply String.eqb_neq in Hl. unfold crawl_documentation.
    destruct (init_crawler w) as [c w1].
    destruct (arun c url (extraction_config extract_type) (engine w1))
      as [[result|e] e']; [|done].
    destruct (py_get (metadata result) "title" (VStr EmptyString)); [|done].
    cbn. by rewrite Hl.
  - intros result e' title Harun Htitle.
    by rewrite (crawl_documentation_ok arun url "links" w result e' title).
Qed.

Lemma crawl_documentation_links_only_for_links_witness :
  "markdown" <> "links"
  /\ dict_get_or (fst (crawl_documentation Example.arun_page "https://x.com" "markdown"
                         Example.w0)) "links" (VList [])
     = VList [].
Proof.
  assert (H : "markdown" <> "links") by discriminate.
  split; [exact H|].
  exact (proj1 (crawl_documentation_links_only_for_links Example.arun_page
                  "https://x.com" "markdown" Example.w0) H).
Defined.

(** X7: when the engine returns a result whose metadata is not a
    dictionary, the title lookup raises and the page is reported as failed,
    with the text of the attribute error, whatever the engine's own success
    flag says. *)
Theorem crawl_documentation_bad_metadata {E : Type} (arun : Arun E)
    (url extract_type : string) (w : World E) result e' :
  arun (fst (init_crawler w)) url (extraction_config extract_type)
       (engine (snd (init_crawler w))) = (Ok result, e') ->
  is_dict (metadata result) = false ->
  fst (crawl_documentation arun url extract_type w)
  = [("url", VStr url);
     ("error", VStr ("'" +:+ py_typename (metadata result)
                     +:+ "' object has no attribute 'get'"));
     ("success", VBool false)].
Proof.
  intros Harun Hmeta. unfold crawl_documentation.
  destruct (init_crawler w) as [c w1]. cbn [fst snd] in *. rewrite Harun.
  by destruct (metadata result).
Qed.

Lemma crawl_documentation_bad_metadata_witness :
  is_dict VNone = false
  /\ fst (crawl_documentation Fixtures.arun_no_metadata "https://x.com" "markdown"
            Example.w0)
     = [("url", VStr "https://x.com");
        ("error", VStr "'NoneType' object has no attribute 'get'");
        ("success", VBool false)].
Proof.
  split; [reflexivity|].
  apply (crawl_documentation_bad_metadata Fixtures.arun_no_metadata "https://x.com"
           "markdown" Example.w0
           (mkCrawlResult VNone (VStr "# T") (VDict []) (VList []) (VBool true)) tt);
    reflexivity.
Defined.

(** X8: the title of a result is the [title] entry of the engine's
    metadata, whatever value it has, and the empty string when the metadata
    has no such entry. *)
Theorem crawl_documentation_title {E : Type} (arun : Arun E)
    (url extract_type : string) (w : World E) result e' m :
  arun (fst (init_crawler w)) url (extraction_config extract_type)
       (engine (snd (init_crawler w))) = (Ok result, e') ->
  metadata result = VDict m ->
  (forall t, dict_get m "title" = Some t ->
     dict_get (fst (crawl_documentation arun url extract_type w)) "title" = Some t)
  /\ (dict_get m "title" = None ->
      dict_get (fst (crawl_documentation arun url extract_type w)) "title"
      = Some (VStr EmptyString)).
Proof.
  intros Harun Hmeta.
  rewrite (crawl_documentation_ok arun url extract_type w result e'
             (dict_get_or m "title" (VStr EmptyString)))
    by (by rewrite ?Hmeta).
  cbn. unfold dict_get_or. split; [intros t Ht|intros Ht]; by rewrite Ht.
Qed.

Lemma crawl_documentation_title_witness :
  dict_get [] "title" = None
  /\ dict_get (fst (crawl_documentation Fixtures.arun_text_content "https://x.com"
                      "markdown" Example.w0)) "title"
     = Some (VStr EmptyString).
Proof.
  split; [reflexivity|].
  apply (proj2 (crawl_documentation_title Fixtures.arun_text_content "https://x.com"
                  "markdown" Example.w0
                  (mkCrawlResult (VDict []) (VStr "# T") (VStr "{}")
                     (VList [VStr Example.page_a]) (VBool true)) tt []
                  eq_refl eq_refl)).
  reflexivity.
Defined.

(** X9: [crawl_documentation] never replaces a crawler that the
    module-level variable already holds. Whatever the configuration of that
    crawler, it is the one handed to the engine (the call behaves as if the
    engine were given that crawler and no other), and it is still in the
    variable after the call. A crawler is constructed only when the
    variable is empty, and the variable is not empty after a call: in a
    sequence of calls only the first can construct one. *)
Theorem crawl_documentation_keeps_crawler {E : Type} (arun : Arun E)
    (url extract_type : string) (w : World E) :
  (forall c0, crawler w = Some c0 ->
     crawler (snd (crawl_documentation arun url extract_type w)) = Some c0
     /\ crawl_documentation arun url extract_type w
        = crawl_documentation (fun _ => arun c0) url extract_type w)
  /\ (crawler w = None ->
      crawler (snd (crawl_documentation arun url extract_type w))
      = Some (mkCrawler "chromium" true false))
  /\ (forall c0 url' extract_type',
        crawler (snd (crawl_documentation arun url extract_type w)) = Some c0 ->
        crawler (snd (crawl_documentation arun url' extract_type'
                        (snd (crawl_documentation arun url extract_type w))))
        = Some c0
        /\ crawl_documentation arun url' extract_type'
             (snd (crawl_documentation arun url extract_type w))
           = crawl_documentation (fun _ => arun c0) url' extract_type'
               (snd (crawl_documentation arun url extract_type w))).
Proof.
  assert (H : forall u t (w1 : World E) c0, crawler w1 = Some c0 ->
             crawler (snd (crawl_documentation arun u t w1)) = Some c0
             /\ crawl_documentation arun u t w1
                = crawl_documentation (fun _ => arun c0) u t w1).
  { intros u t [[c|] e] c0 Hc; simpl in Hc; [|discriminate Hc].
    injection Hc as ->. unfold crawl_documentation, init_crawler. cbn.
    split; [|reflexivity].
    destruct (arun c0 u (extraction_config t) e) as [[result|x] e1]; cbn; try done.
    by destruct (py_get (metadata result) "title" (VStr EmptyString)). }
  split; [apply H|]. split; [|intros c0 url' extract_type'; apply H].
  destruct w as [[c|] e]; simpl; [discriminate|]. intros _.
  unfold crawl_documentation, init_crawler. cbn.
  destruct (arun _ url (extraction_config extract_type) e) as [[result|x] e1];
    cbn; try done.
  by destruct (py_get (metadata result) "title" (VStr EmptyString)).
Qed.

Lemma crawl_documentation_keeps_crawler_witness :
  crawler (mkWorld (Some (mkCrawler "firefox" false true)) tt)
  = Some (mkCrawler "firefox" false true)
  /\ crawler (snd (crawl_documentation Fixtures.arun_browser "https://x.com" "markdown"
                     (mkWorld (Some (mkCrawler "firefox" false true)) tt)))
     = Some (mkCrawler "firefox" false true)
  /\ crawl_documentation Fixtures.arun_browser "https://x.com" "markdown"
       (mkWorld (Some (mkCrawler "firefox" false true)) tt)
     = crawl_documentation
         (fun _ => Fixtures.arun_browser (mkCrawler "firefox" false true))
         "https://x.com" "markdown"
         (mkWorld (Some (mkCrawler "firefox" false true)) tt).
Proof.
  split; [reflexivity|].
  exact (proj1 (crawl_documentation_keeps_crawler Fixtures.arun_browser "https://x.com"
                  "markdown" (mkWorld (Some (mkCrawler "firefox" false true)) tt))
           (mkCrawler "firefox" false true) eq_refl).
Defined.

(** The engine sees the crawler the variable holds, not a new one: on a
    variable holding a crawler for another browser the page is fetched with
    that browser, and on an empty variable with the one [init_crawler]
    constructs. *)
Example crawl_documentation_browser :
  dict_get (fst (crawl_documentation Fixtures.arun_browser "https://x.com" "markdown"
                   (mkWorld (Some (mkCrawler "firefox" false true)) tt))) "title"
  = Some (VStr "firefox")
  /\ dict_get (fst (crawl_documentation Fixtures.arun_browser "https://x.com" "markdown"
                      Example.w0)) "title"
     = Some (VStr "chromium").
Proof. split; reflexivity. Qed.

(** ** The prompt template *)

Lemma contains_later (a s sub : string) :
  Str.contains s sub = true -> Str.contains (a +:+ s) sub = true.
Proof.
  rewrite !StrFacts.contains_spec. intros (pre & post & ->).
  exists (a +:+ pre), post. by rewrite string_app_assoc.
Qed.

Ltac contains_head :=
  apply StrFacts.contains_spec; eexists EmptyString, _;
  rewrite ?string_app_assoc; reflexivity.

Ltac contains_search :=
  first [ solve [contains_head] | apply contains_later; contains_search ].

(** X10: the prompt carries both arguments exactly as they are given, for
    every framework name and documentation URL: the name in the opening
    sentence, and the name and the URL between double quotes as the
    parameters of the tool call it asks for. *)
Theorem analyze_framework_prompt_embeds (framework_name documentation_url : string) :
  Str.startswith (analyze_framework_prompt framework_name documentation_url)
    (nl +:+ "    Please analyze the " +:+ framework_name +:+ " framework by:")
  = true
  /\ Str.contains (analyze_framework_prompt framework_name documentation_url)
       ("framework_name: " +:+ dq +:+ framework_name +:+ dq +:+ nl) = true
  /\ Str.contains (analyze_framework_prompt framework_name documentation_url)
       ("base_url: " +:+ dq +:+ documentation_url +:+ dq +:+ nl) = true.
Proof.
  unfold analyze_framework_prompt. repeat split.
  - apply StrFacts.startswith_spec. eexists.
    rewrite !string_app_assoc. reflexivity.
  - change "       - framework_name: " with ("       - " +:+ "framework_name: ").
    rewrite (string_app_assoc "       - " "framework_name: ").
    contains_search.
  - change "       - base_url: " with ("       - " +:+ "base_url: ").
    rewrite (string_app_assoc "       - " "base_url: ").
    contains_search.
Qed.

(** ** The crawl controller, further *)

Lemma fmap_fst_entries (d : Z) (ls : list string) :
  fst <$> map (fun l => (l, d + 1)) ls = ls.
Proof. induction ls as [|l ls IH]; [done|]. cbn. by rewrite IH. Qed.

Lemma fmap_edge_to (u : string) (ls : list string) :
  edge_to <$> map (fun l => mkEdge u l "references") ls = ls.
Proof. induction ls as [|l ls IH]; [done|]. cbn. by rewrite IH. Qed.

Lemma first_enqueued_elem u d (l : list (string * Z)) :
  first_enqueued u l = Some d -> (u, d) ∈ l.
Proof.
  induction l as [|[u' d'] l IH]; simpl; [done|].
  destruct (String.eqb_spec u' u) as [->|_].
  - intros [= ->]. left.
  - intros H. right. by apply IH.
Qed.

Section Edges.
Context {E : Type}.
Variable fetch : string -> string -> World E -> Dict * World E.
Variable framework_name : string.
Variable base_url : string.
Variable depth : Z.
Variable patterns : option (list string).

Lemma visit_keeps_graph (st : State E) u d rest :
  knowledge_graph (snd (visit fetch u d rest st)) = knowledge_graph st
  /\ enqueued (snd (visit fetch u d rest st)) = enqueued st.
Proof. unfold visit, call_fetch. cbn. by destruct (fetch _ _ _). Qed.

Lemma edges_inv_initial (w : World E) :
  edges_inv base_url depth patterns (initial_state framework_name base_url w).
Proof.
  constructor; cbn; [|done]. intros e He. by apply elem_of_nil in He.
Qed.

(** Every iteration keeps the invariant of the relationships. *)
Lemma edges_inv_step (st st' : State E) :
  crawl_inv framework_name base_url depth st ->
  edges_inv base_url depth patterns st ->
  body_step fetch base_url depth patterns st st' ->
  edges_inv base_url depth patterns st'.
Proof.
  intros HI [Hedges Hpaired] Hstep.
  destruct Hstep as [u d rest Hq Hskip | u d rest Hq Hnew Hd
                    | u d rest node ls Hq Hnew Hd Hsucc Hnd Hls Hall].
  - by constructor.
  - destruct (visit_keeps_graph st u d rest) as [Hg He].
    constructor; by rewrite ?Hg, ?He.
  - destruct (visit_keeps_graph st u d rest) as [Hg He].
    destruct (enqueue_links_fields u d ls
                (add_node u node (snd (visit fetch u d rest st))))
      as (_ & Henq & Hrel & Hnodes & _).
    cbn [add_node knowledge_graph enqueued kg_nodes kg_relationships] in *.
    rewrite Hg, ?He in *.
    assert (Hfresh : kg_nodes (knowledge_graph st) !! u = None).
    { destruct (kg_nodes (knowledge_graph st) !! u) as [n|] eqn:Hn; [|done].
      destruct (inv_nodes _ _ _ _ HI u n Hn) as (fc & Hfc & <- & _).
      exfalso. apply Hnew, (inv_visited _ _ _ _ HI). by apply list_elem_of_fmap_2. }
    constructor.
    + intros e. rewrite Hrel, Hnodes, elem_of_app. intros [He'|He'].
      * destruct (Hedges e He') as (Ht & Hacc & n & Hn & Hlt).
        split; [done|]. split; [done|]. exists n. split; [|done].
        rewrite lookup_insert_ne; [done|]. intros Heq. rewrite <- Heq in Hn. congruence.
      * apply list_elem_of_In, in_map_iff in He' as (l & <- & Hl).
        destruct Hls as [->|Hlt]; [done|].
        split; [done|]. split.
        -- rewrite Forall_forall in Hall. by apply Hall, list_elem_of_In.
        -- exists node. rewrite lookup_insert_eq. split; [done|]. by rewrite Hnd.
    + rewrite Henq, Hrel, !fmap_app, Hpaired, fmap_fst_entries, fmap_edge_to.
      done.
Qed.

(** Both invariants hold of the state the run ends in. *)
Lemma crawl_run_edges_inv (w : World E) :
  edges_inv base_url depth patterns
    (final_state (crawl_run fetch framework_name base_url depth patterns w)).
Proof.
  rewrite crawl_run_loop.
  set (st0 := initial_state framework_name base_url (snd (init_crawler w))).
  apply (crawl_loop_invariant fetch base_url depth patterns
           (fun s => crawl_inv framework_name base_url depth s
                     /\ edges_inv base_url depth patterns s) st0).
  - intros s [HI HE] Hc.
    assert (Hstep : body_step fetch base_url depth patterns s
                      (final_state (loop_body fetch base_url depth patterns s))).
    { apply loop_body_step. unfold loop_cond in Hc. by destruct (url_queue s). }
    split; [by eapply crawl_inv_step | by eapply edges_inv_step].
  - split; [apply crawl_inv_initial | apply edges_inv_initial].
Qed.

(** Every URL that was fetched was popped from the queue, and every entry
    popped was enqueued. *)
Lemma fetched_was_enqueued (st : State E) fc :
  crawl_inv framework_name base_url depth st ->
  fc ∈ fetched st -> (fc_url fc, fc_depth fc) ∈ enqueued st.
Proof.
  intros HI Hfc. rewrite (inv_queue _ _ _ _ HI). apply elem_of_app. left.
  by apply first_enqueued_elem, (inv_first _ _ _ _ HI).
Qed.

End Edges.

Lemma startswith_refl (b : string) : Str.startswith b b = true.
Proof. induction b as [|c b IH]; [done|]. cbn. by rewrite Ascii.eqb_refl. Qed.

(** X11: every relationship of the graph is tagged ["references"], leads
    to a link that the filter accepts, so to a URL under the base URL, and
    starts at a node whose depth is below the depth parameter. *)
Theorem relationships_well_formed {E : Type}
    (fetch : string -> string -> World E -> Dict * World E)
    (framework_name base_url : string) (depth : Z)
    (patterns : option (list string)) (w : World E) (e : Edge) :
  e ∈ kg_relationships (knowledge_graph
        (final_state (crawl_run fetch framework_name base_url depth patterns w))) ->
  edge_type e = "references"
  /\ should_crawl_link (edge_to e) base_url patterns = true
  /\ Str.startswith (edge_to e) base_url = true
  /\ exists n,
       kg_nodes (knowledge_graph
         (final_state (crawl_run fetch framework_name base_url depth patterns w)))
         !! edge_from e = Some n
       /\ node_depth n < depth.
Proof.
  intros He.
  destruct (einv_edges _ _ _ _
              (crawl_run_edges_inv fetch framework_name base_url depth patterns w)
              e He) as (Ht & Hacc & Hn).
  split; [done|]. split; [done|]. split; [|done].
  rewrite should_crawl_link_tests in Hacc. by apply andb_true_iff in Hacc as [? _].
Qed.

Lemma relationships_well_formed_witness :
  mkEdge Example.page_a Example.page_c "references"
    ∈ kg_relationships (knowledge_graph
        (final_state (crawl_run Example.site "docs" Example.base 2 None Example.w0)))
  /\ Str.startswith Example.page_c Example.base = true.
Proof.
  assert (H : mkEdge Example.page_a Example.page_c "references"
    ∈ kg_relationships (knowledge_graph
        (final_state (crawl_run Example.site "docs" Example.base 2 None Example.w0)))).
  { eval_run 10%nat. do 3 apply list_elem_of_further. apply list_elem_of_here. }
  split; [exact H|].
  exact (proj1 (proj2 (proj2
    (relationships_well_formed Example.site "docs" Example.base 2 None Example.w0
       _ H)))).
Defined.

(** X12: the relationships and the queue grow together. The URLs ever
    enqueued are the base URL followed by the targets of the relationships,
    in the same order: every enqueued link has its relationship and every
    relationship its queue entry, duplicates included. *)
Theorem relationships_paired_with_queue {E : Type}
    (fetch : string -> string -> World E -> Dict * World E)
    (framework_name base_url : string) (depth : Z)
    (patterns : option (list string)) (w : World E) :
  fst <$> enqueued
            (final_state (crawl_run fetch framework_name base_url depth patterns w))
  = base_url :: (edge_to <$> kg_relationships (knowledge_graph
        (final_state (crawl_run fetch framework_name base_url depth patterns w))))
  /\ length (enqueued
       (final_state (crawl_run fetch framework_name base_url depth patterns w)))
     = S (length (kg_relationships (knowledge_graph
        (final_state (crawl_run fetch framework_name base_url depth patterns w))))).
Proof.
  pose proof (einv_paired _ _ _ _
    (crawl_run_edges_inv fetch framework_name base_url depth patterns w)) as H.
  split; [exact H|].
  apply (f_equal length) in H. by rewrite !length_fmap in H; cbn in H;
    rewrite ?length_fmap in H.
Qed.

(** X13: the crawl stays under the base URL: every URL visited, every URL
    fetched and every key of the nodes starts with the base URL. *)
Theorem crawl_stays_under_base_url {E : Type}
    (fetch : string -> string -> World E -> Dict * World E)
    (framework_name base_url : string) (depth : Z)
    (patterns : option (list string)) (w : World E) :
  (forall u,
      u ∈ visited_urls
            (final_state (crawl_run fetch framework_name base_url depth patterns w)) ->
      Str.startswith u base_url = true)
  /\ (forall fc,
        fc ∈ fetched
               (final_state (crawl_run fetch framework_name base_url depth patterns w)) ->
        Str.startswith (fc_url fc) base_url = true)
  /\ (forall u n,
        kg_nodes (knowledge_graph
          (final_state (crawl_run fetch framework_name base_url depth patterns w)))
          !! u = Some n ->
        Str.startswith u base_url = true).
Proof.
  pose proof (crawl_run_inv fetch framework_name base_url depth patterns w) as HI.
  pose proof (crawl_run_edges_inv fetch framework_name base_url depth patterns w) as HE.
  set (st := final_state _) in *.
  assert (Hfetched : forall fc, fc ∈ fetched st ->
                                Str.startswith (fc_url fc) base_url = true).
  { intros fc Hfc.
    pose proof (fetched_was_enqueued _ _ _ _ _ HI Hfc) as Hin.
    apply (list_elem_of_fmap_2 fst) in Hin. cbn in Hin.
    rewrite (einv_paired _ _ _ _ HE) in Hin.
    apply elem_of_cons in Hin as [->|Hin]; [apply startswith_refl|].
    apply list_elem_of_fmap in Hin as (e & -> & He).
    destruct (einv_edges _ _ _ _ HE e He) as (_ & Hacc & _).
    rewrite should_crawl_link_tests in Hacc.
    by apply andb_true_iff in Hacc as [? _]. }
  split; [|split; [exact Hfetched|]].
  - intros u Hu. apply (inv_visited _ _ _ _ HI) in Hu.
    apply list_elem_of_fmap in Hu as (fc & -> & Hfc). by apply Hfetched.
  - intros u n Hn. destruct (inv_nodes _ _ _ _ HI u n Hn) as (fc & Hfc & <- & _).
    by apply Hfetched.
Qed.

Lemma crawl_stays_under_base_url_witness :
  Example.page_c ∈ visited_urls
    (final_state (crawl_run Example.site "docs" Example.base 2 None Example.w0))
  /\ Str.startswith Example.page_c Example.base = true.
Proof.
  assert (H : Example.page_c ∈ visited_urls
    (final_state (crawl_run Example.site "docs" Example.base 2 None Example.w0))).
  { refine (bool_decide_unpack _ _). eval_run 10%nat. exact I. }
  split; [exact H|].
  exact (proj1 (crawl_stays_under_base_url Example.site "docs" Example.base 2 None
                  Example.w0) _ H).
Defined.

(** X14: one invocation issues at most 50 fetches, one for each visited
    URL, and the graph has at most as many nodes as fetches were issued. *)
Theorem fetch_and_node_counts {E : Type}
    (fetch : string -> string -> World E -> Dict * World E)
    (framework_name base_url : string) (depth : Z)
    (patterns : option (list string)) (w : World E) :
  length (fetched
    (final_state (crawl_run fetch framework_name base_url depth patterns w)))
  = size (visited_urls
      (final_state (crawl_run fetch framework_name base_url depth patterns w)))
  /\ (length (fetched
        (final_state (crawl_run fetch framework_name base_url depth patterns w)))
      <= 50)%nat
  /\ (size (kg_nodes (knowledge_graph
        (final_state (crawl_run fetch framework_name base_url depth patterns w))))
      <= length (fetched
           (final_state (crawl_run fetch framework_name base_url depth patterns w))))%nat.
Proof.
  pose proof (crawl_run_inv fetch framework_name base_url depth patterns w) as HI.
  set (st := final_state _) in *.
  assert (Hset : visited_urls st = list_to_set (fc_url <$> fetched st)).
  { apply set_eq. intros u. rewrite elem_of_list_to_set.
    apply (inv_visited _ _ _ _ HI). }
  assert (Hlen : length (fetched st) = size (visited_urls st)).
  { rewrite Hset, size_list_to_set by apply (inv_nodup _ _ _ _ HI).
    by rewrite length_fmap. }
  split; [exact Hlen|]. split.
  - rewrite Hlen. apply (inv_cap _ _ _ _ HI).
  - rewrite Hlen, <- size_dom. apply subseteq_size.
    intros u Hu. apply elem_of_dom in Hu as [n Hn].
    destruct (inv_nodes _ _ _ _ HI u n Hn) as (fc & Hfc & <- & _).
    apply (inv_visited _ _ _ _ HI). by apply list_elem_of_fmap_2.
Qed.

(** X15: the depth of a queue entry is never negative, whatever the depth
    parameter; when the parameter is not negative no entry is deeper than
    it, so the depth test of the loop can reject an entry only for a
    negative parameter, and the entry it then rejects has depth 0. The
    pages fetched have depths between 0 and the parameter in every case. *)
Theorem entry_depths_in_range {E : Type}
    (fetch : string -> string -> World E -> Dict * World E)
    (framework_name base_url : string) (depth : Z)
    (patterns : option (list string)) (w : World E) :
  (forall e,
     e ∈ enqueued
           (final_state (crawl_run fetch framework_name base_url depth patterns w)) ->
     0 <= snd e
     /\ (0 <= depth -> snd e <= depth)
     /\ (depth < snd e -> depth < 0 /\ snd e = 0))
  /\ (forall fc,
        fc ∈ fetched
               (final_state (crawl_run fetch framework_name base_url depth patterns w)) ->
        0 <= fc_depth fc <= depth).
Proof.
  pose proof (crawl_run_inv fetch framework_name base_url depth patterns w) as HI.
  split.
  - intros e He. destruct (inv_depths _ _ _ _ HI e He) as [? [?|?]]; lia.
  - intros fc Hfc.
    pose proof (fetched_was_enqueued _ _ _ _ _ HI Hfc) as Hin.
    destruct (inv_depths _ _ _ _ HI _ Hin) as [? _].
    destruct (inv_marked _ _ _ _ HI fc Hfc) as [_ ?]. simpl in *. lia.
Qed.

Lemma entry_depths_in_range_witness :
  (Example.page_b, 2) ∈ enqueued
       (final_state (crawl_run Example.site "docs" Example.base 2 None Example.w0))
  /\ 0 <= 2
  /\ (0 <= 2 -> 2 <= 2)
  /\ (2 < 2 -> 2 < 0 /\ 2 = 0).
Proof.
  assert (H : (Example.page_b, 2) ∈ enqueued
       (final_state (crawl_run Example.site "docs" Example.base 2 None Example.w0))).
  { eval_run 10%nat. do 5 apply list_elem_of_further. apply list_elem_of_here. }
  split; [exact H|].
  exact (proj1 (entry_depths_in_range Example.site "docs" Example.base 2 None
                  Example.w0) (Example.page_b, 2) H).
Defined.

(** X16: with a depth parameter of 0, or less, the crawl is a single page.
    No relationship is recorded, nothing but the base URL is ever enqueued,
    at most one fetch is issued, and only the base URL can have a node, at
    depth 0. *)
Theorem depth_zero_single_page {E : Type}
    (fetch : string -> string -> World E -> Dict * World E)
    (framework_name base_url : string) (depth : Z)
    (patterns : option (list string)) (w : World E) :
  depth <= 0 ->
  kg_relationships (knowledge_graph
    (final_state (crawl_run fetch framework_name base_url depth patterns w))) = []
  /\ enqueued
       (final_state (crawl_run fetch framework_name base_url depth patterns w))
     = [(base_url, 0)]
  /\ (length (fetched
        (final_state (crawl_run fetch framework_name base_url depth patterns w)))
      <= 1)%nat
  /\ (forall u n,
        kg_nodes (knowledge_graph
          (final_state (crawl_run fetch framework_name base_url depth patterns w)))
          !! u = Some n ->
        u = base_url /\ node_depth n = 0).
Proof.
  intros Hd.
  pose proof (crawl_run_inv fetch framework_name base_url depth patterns w) as HI.
  pose proof (crawl_run_edges_inv fetch framework_name base_url depth patterns w) as HE.
  set (st := final_state _) in *.
  assert (Hrel : kg_relationships (knowledge_graph st) = []).
  { destruct (kg_relationships (knowledge_graph st)) as [|e rel] eqn:Hr; [done|].
    exfalso.
    destruct (einv_edges _ _ _ _ HE e) as (_ & _ & n & Hn & Hlt);
      [rewrite Hr; left|].
    destruct (inv_nodes _ _ _ _ HI _ n Hn) as (fc & Hfc & _ & Hdepth).
    pose proof (fetched_was_enqueued _ _ _ _ _ HI Hfc) as Hin.
    destruct (inv_depths _ _ _ _ HI _ Hin) as [? _]. simpl in *. lia. }
  assert (Henq : enqueued st = [(base_url, 0)]).
  { pose proof (einv_paired _ _ _ _ HE) as Hp. rewrite Hrel in Hp. cbn in Hp.
    destruct (enqueued st) as [|[u d] [|e' q]] eqn:Hq; try discriminate Hp.
    injection Hp as ->.
    destruct (inv_depths _ _ _ _ HI (base_url, d)) as [? [?|?]];
      [rewrite Hq; left| |]; simpl in *; f_equal; f_equal; lia. }
  assert (Hfetched : forall fc, fc ∈ fetched st ->
                                fc_url fc = base_url /\ fc_depth fc = 0).
  { intros fc Hfc. pose proof (fetched_was_enqueued _ _ _ _ _ HI Hfc) as Hin.
    rewrite Henq in Hin. apply list_elem_of_singleton in Hin. by injection Hin. }
  split; [exact Hrel|]. split; [exact Henq|]. split.
  - pose proof (inv_nodup _ _ _ _ HI) as Hnd.
    destruct (fetched st) as [|fc1 [|fc2 l]] eqn:Hf; cbn; [lia|lia|exfalso].
    destruct (Hfetched fc1) as [H1 _]; [left|].
    destruct (Hfetched fc2) as [H2 _]; [right; left|].
    cbn in Hnd. rewrite H1, H2 in Hnd. apply NoDup_cons in Hnd as [Hnotin _].
    apply Hnotin. left.
  - intros u n Hn. destruct (inv_nodes _ _ _ _ HI u n Hn) as (fc & Hfc & <- & <-).
    by apply Hfetched.
Qed.

Lemma depth_zero_single_page_witness :
  0 <= 0
  /\ kg_relationships (knowledge_graph
       (final_state (crawl_run Example.site "docs" Example.base 0 None Example.w0)))
     = []
  /\ dom (kg_nodes (knowledge_graph
       (final_state (crawl_run Example.site "docs" Example.base 0 None Example.w0))))
     = {[Example.base]}.
Proof.
  split; [lia|]. split.
  - apply (depth_zero_single_page Example.site "docs" Example.base 0 None Example.w0).
    lia.
  - refine (bool_decide_unpack _ _). eval_run 10%nat. exact I.
Defined.

(** X17: the loop comes to an end whatever the callee returns: from the
    initial state of any invocation, some finite number of iterations
    brings the loop to its outcome, a returned state or an exception. *)
Theorem crawl_always_ends {E : Type}
    (fetch : string -> string -> World E -> Dict * World E)
    (framework_name base_url : string) (depth : Z)
    (patterns : option (list string)) (w : World E) :
  exists (iterations : nat) (o : Outcome E),
    crawl_loop_fuel fetch base_url depth patterns iterations
      (initial_state framework_name base_url (snd (init_crawler w))) = Some o
    /\ crawl_run fetch framework_name base_url depth patterns w = o
    /\ (forall more,
          crawl_loop_fuel fetch base_url depth patterns (iterations + more)
            (initial_state framework_name base_url (snd (init_crawler w))) = Some o).
Proof.
  destruct (crawl_loop_terminates fetch base_url depth patterns
              (initial_state framework_name base_url (snd (init_crawler w))))
    as [fuel Hfuel].
  exists fuel, (crawl_run fetch framework_name base_url depth patterns w).
  rewrite crawl_run_loop. split; [done|]. split; [done|].
  intros more. revert Hfuel.
  generalize (crawl_loop fetch base_url depth patterns
                (initial_state framework_name base_url (snd (init_crawler w)))).
  generalize (initial_state framework_name base_url (snd (init_crawler w))).
  induction fuel as [|fuel IH]; intros st o; cbn [crawl_loop_fuel Nat.add].
  - destruct (loop_cond st) eqn:Hc; [done|]. intros H.
    destruct more; cbn; by rewrite Hc.
  - destruct (loop_cond st); [|done].
    destruct (loop_body fetch base_url depth patterns st); [apply IH|done].
Qed.

(** ** The loop over the links of a page *)

(** X18: over a sequence of strings the loop over the links ends normally
    and has enqueued exactly the links the filter accepts, in the order of
    the page and as often as the page lists them, each with one
    relationship from the current page: nothing is deduplicated. *)
Theorem link_loop_enqueues_accepted {E : Type} (base_url : string)
    (patterns : option (list string)) (u : string) (d : Z) (ls : list string)
    (st : State E) :
  process_links base_url patterns u d (map VStr ls) st
  = Done (enqueue_links u d (accepted_links base_url patterns ls) st)
  /\ url_queue (enqueue_links u d (accepted_links base_url patterns ls) st)
     = (url_queue st
        ++ map (fun l => (l, d + 1)) (accepted_links base_url patterns ls))%list
  /\ kg_relationships
       (knowledge_graph (enqueue_links u d (accepted_links base_url patterns ls) st))
     = (kg_relationships (knowledge_graph st)
        ++ map (fun l => mkEdge u l "references")
               (accepted_links base_url patterns ls))%list.
Proof.
  split.
  - revert st. induction ls as [|l ls IH]; intros st; [done|].
    cbn [map process_links accepted_links List.filter].
    destruct (should_crawl_link l base_url patterns); [|apply IH].
    rewrite enqueue_links_cons. apply IH.
  - destruct (enqueue_links_fields u d (accepted_links base_url patterns ls) st)
      as (H1 & _ & H3 & _). by split.
Qed.

(** The same link twice on a page gives two queue entries and two
    relationships. *)
Example link_loop_keeps_duplicates :
  kg_relationships (knowledge_graph (final_state
    (process_links Example.base None Example.base 0
       (map VStr [Example.page_a; "https://x.com/blog"; Example.page_a])
       (initial_state "docs" Example.base Example.w0))))
  = [mkEdge Example.base Example.page_a "references";
     mkEdge Example.base Example.page_a "references"].
Proof. reflexivity. Qed.

(** X19: a link that is not a string stops the loop over the links with an
    attribute error: the links before it have been handled, accepted ones
    are in the queue and in the relationships, and the links after it are
    never looked at. *)
Theorem link_loop_stops_at_non_string {E : Type} (base_url : string)
    (patterns : option (list string)) (u : string) (d : Z) (ls : list string)
    (v : PyVal) (rest : list PyVal) (st : State E) :
  is_str v = false ->
  process_links base_url patterns u d (map VStr ls ++ v :: rest) st
  = Raised (mkExn "AttributeError"
              ("'" +:+ py_typename v +:+ "' object has no attribute 'startswith'"))
           (enqueue_links u d (accepted_links base_url patterns ls) st).
Proof.
  intros Hv. revert st. induction ls as [|l ls IH]; intros st.
  - cbn. by destruct v.
  - cbn [map app process_links accepted_links List.filter].
    destruct (should_crawl_link l base_url patterns); [|apply IH].
    rewrite enqueue_links_cons. apply IH.
Qed.

Lemma link_loop_stops_at_non_string_witness :
  is_str (VInt 7) = false
  /\ process_links Example.base None Example.base 0
       (map VStr [Example.page_a] ++ VInt 7 :: [VStr Example.page_b])
       (initial_state "docs" Example.base Example.w0)
     = Raised (mkExn "AttributeError" "'int' object has no attribute 'startswith'")
         (enqueue_links Example.base 0 [Example.page_a]
            (initial_state "docs" Example.base Example.w0)).
Proof.
  split; [reflexivity|].
  apply (link_loop_stops_at_non_string Example.base None Example.base 0
           [Example.page_a] (VInt 7) [VStr Example.page_b]
           (initial_state "docs" Example.base Example.w0)).
  reflexivity.
Defined.

(** ** Pages whose result is not as the controller expects *)

Section Base_page.
Context {E : Type}.
Variable fetch : string -> string -> World E -> Dict * World E.
Variable framework_name : string.
Variable base_url : string.
Variable depth : Z.
Variable patterns : option (list string).
Variable w : World E.

#[local] Abbreviation w1 := (snd (init_crawler w)).
#[local] Abbreviation st0 := (initial_state framework_name base_url w1).
#[local] Abbreviation result := (fst (fetch base_url "structured" w1)).
#[local] Abbreviation fetched_base :=
  (snd (visit fetch base_url 0 [] st0)).

(** The first iteration, when the depth parameter is not negative: the base
    URL is fetched. *)
Lemma first_iteration :
  0 <= depth ->
  loop_body fetch base_url depth patterns st0
  = if py_truthy (dict_get_or result "success" VNone) then
      match py_get (dict_get_or result "content" (VDict [])) "main_concepts" (VList []) with
      | Raise e => Raised e fetched_base
      | Ok concepts =>
          match py_get (dict_get_or result "content" (VDict [])) "api_methods" (VList []) with
          | Raise e => Raised e fetched_base
          | Ok apis =>
              if (0 <? depth)%Z then
                match py_iter (dict_get_or result "links" (VList [])) with
                | Raise e =>
                    Raised e
                      (add_node base_url
                         (mkNode (dict_get_or result "title" VNone) concepts apis 0)
                         fetched_base)
                | Ok ls =>
                    process_links base_url patterns base_url 0 ls
                      (add_node base_url
                         (mkNode (dict_get_or result "title" VNone) concepts apis 0)
                         fetched_base)
                end
              else
                Done (add_node base_url
                        (mkNode (dict_get_or result "title" VNone) concepts apis 0)
                        fetched_base)
          end
      end
    else Done fetched_base.
Proof.
  intros Hd. unfold loop_body, visit, call_fetch. cbn.
  apply Z.ltb_ge in Hd. rewrite Hd.
  by destruct (fetch base_url "structured" (snd (init_crawler w))).
Qed.

Lemma fetched_base_world : world fetched_base = snd (fetch base_url "structured" w1).
Proof. unfold visit, call_fetch. cbn. by destruct (fetch _ _ _). Qed.

Lemma fetched_base_graph :
  knowledge_graph fetched_base = mkGraph framework_name base_url ∅ []
  /\ url_queue fetched_base = [].
Proof. unfold visit, call_fetch. cbn. by destruct (fetch _ _ _). Qed.

(** The run when the first iteration raises. *)
Lemma crawl_run_first_raises e st :
  loop_body fetch base_url depth patterns st0 = Raised e st ->
  crawl_run fetch framework_name base_url depth patterns w = Raised e st.
Proof.
  intros Hb. rewrite crawl_run_loop, crawl_loop_while.
  change (loop_cond st0) with true. cbv iota. by rewrite Hb.
Qed.

(** A successful result whose content has no [get] makes the run raise,
    after the fetch and before any node is added. *)
Lemma base_content_has_no_get v :
  0 <= depth ->
  py_truthy (dict_get_or result "success" VNone) = true ->
  dict_get result "content" = Some v ->
  is_dict v = false ->
  crawl_run fetch framework_name base_url depth patterns w
  = Raised (AttributeError v "get") fetched_base.
Proof.
  intros Hd Hs Hc Hv. apply crawl_run_first_raises.
  rewrite first_iteration by done. rewrite Hs.
  unfold dict_get_or at 1. rewrite Hc. cbn [default].
  by destruct v.
Qed.

(** An unsuccessful result for the base URL ends the run with the graph
    empty. *)
Lemma base_unsuccessful :
  py_truthy (dict_get_or result "success" VNone) = false ->
  exists st,
    crawl_run fetch framework_name base_url depth patterns w = Done st
    /\ knowledge_graph st = mkGraph framework_name base_url ∅ [].
Proof.
  intros Hs. rewrite crawl_run_loop.
  destruct (decide (depth < 0)) as [Hneg|Hpos].
  - exists (pop_front (base_url, 0) [] st0). split; [|done].
    apply crawl_loop_last; [done| |done].
    unfold loop_body. cbn. apply Z.ltb_lt in Hneg. by rewrite Hneg.
  - exists fetched_base. split; [|apply fetched_base_graph].
    apply crawl_loop_last; [done| |apply fetched_base_graph].
    rewrite first_iteration by lia. by rewrite Hs.
Qed.

End Base_page.

(** X20: when the fetch of the base URL reports success and its content is
    there but is not a dictionary, [extend_knowledge_graph] does not return
    a graph: it raises the attribute error of the missing [get]. The URL has
    then been fetched and marked visited, and no node was added. *)
Theorem non_dict_content_raises {E : Type}
    (fetch : string -> string -> World E -> Dict * World E)
    (framework_name base_url : string) (depth : Z)
    (patterns : option (list string)) (w : World E) (v : PyVal) :
  0 <= depth ->
  py_truthy (dict_get_or (fst (fetch base_url "structured" (snd (init_crawler w))))
               "success" VNone) = true ->
  dict_get (fst (fetch base_url "structured" (snd (init_crawler w)))) "content"
  = Some v ->
  is_dict v = false ->
  extend_knowledge_graph fetch framework_name base_url depth patterns w
  = (Raise (mkExn "AttributeError"
              ("'" +:+ py_typename v +:+ "' object has no attribute 'get'")),
     snd (fetch base_url "structured" (snd (init_crawler w))))
  /\ kg_nodes (knowledge_graph
       (final_state (crawl_run fetch framework_name base_url depth patterns w))) = ∅
  /\ fc_url <$> fetched
       (final_state (crawl_run fetch framework_name base_url depth patterns w))
     = [base_url].
Proof.
  intros Hd Hs Hc Hv. unfold extend_knowledge_graph.
  rewrite (base_content_has_no_get fetch framework_name base_url depth patterns w v)
    by done.
  cbn [final_state]. rewrite fetched_base_world.
  destruct (fetched_base_graph fetch framework_name base_url w) as [-> _].
  split; [done|]. split; [done|].
  unfold visit, call_fetch. cbn. by destruct (fetch _ _ _).
Qed.

Lemma non_dict_content_raises_witness :
  0 <= 2
  /\ is_dict (VStr "{}") = false
  /\ extend_knowledge_graph Fixtures.text_content "docs" Example.base 2 None Example.w0
     = (Raise (mkExn "AttributeError" "'str' object has no attribute 'get'"),
        mkWorld (Some (mkCrawler "chromium" true false)) tt).
Proof.
  split; [lia|]. split; [reflexivity|].
  apply (non_dict_content_raises Fixtures.text_content "docs" Example.base 2 None
           Example.w0 (VStr "{}")); [lia | reflexivity | reflexivity | reflexivity].
Defined.

(** X21: when the fetch of the base URL reports success and its result has
    no content field, the base URL gets a node with no concepts and no
    APIs, at depth 0, whose title is the title field of the result, [None]
    when that is missing too. *)
Theorem missing_content_gives_empty_node {E : Type}
    (fetch : string -> string -> World E -> Dict * World E)
    (framework_name base_url : string) (depth : Z)
    (patterns : option (list string)) (w : World E) :
  0 <= depth ->
  py_truthy (dict_get_or (fst (fetch base_url "structured" (snd (init_crawler w))))
               "success" VNone) = true ->
  dict_get (fst (fetch base_url "structured" (snd (init_crawler w)))) "content"
  = None ->
  kg_nodes (knowledge_graph
    (final_state (crawl_run fetch framework_name base_url depth patterns w)))
    !! base_url
  = Some (mkNode (dict_get_or (fst (fetch base_url "structured" (snd (init_crawler w))))
                    "title" VNone)
                 (VList []) (VList []) 0).
Proof.
  intros Hd Hs Hc. rewrite crawl_run_loop.
  set (st0 := initial_state framework_name base_url (snd (init_crawler w))).
  set (node := mkNode _ _ _ _).
  assert (Hbody : kg_nodes (knowledge_graph
            (final_state (loop_body fetch base_url depth patterns st0)))
            !! base_url = Some node).
  { unfold st0. rewrite first_iteration by done. rewrite Hs.
    unfold dict_get_or at 1 2. rewrite Hc. cbn [default py_get dict_get].
    fold node.
    destruct (0 <? depth)%Z; [|cbn; by rewrite lookup_insert_eq].
    destruct (py_iter _) as [ls|e]; [|cbn; by rewrite lookup_insert_eq].
    match goal with
    | |- context [process_links ?b ?p ?u ?d ?l ?s] =>
        destruct (process_links_shape b p u d l s) as [ls' [-> _]];
        destruct (enqueue_links_fields u d ls' s) as (_ & _ & _ & -> & _)
    end.
    cbn. by rewrite lookup_insert_eq. }
  assert (Hinv : crawl_inv framework_name base_url depth
                   (final_state (loop_body fetch base_url depth patterns st0))).
  { eapply crawl_inv_step; [apply crawl_inv_initial|done|].
    by apply loop_body_step. }
  rewrite crawl_loop_while. change (loop_cond st0) with true. cbv iota.
  destruct (loop_body fetch base_url depth patterns st0) as [st'|e st'];
    cbn [final_state] in *; [|done].
  by eapply crawl_loop_keeps_nodes.
Qed.

Lemma missing_content_gives_empty_node_witness :
  0 <= 1
  /\ kg_nodes (knowledge_graph
       (final_state (crawl_run Fixtures.bare "docs" Example.base 1 None Example.w0)))
       !! Example.base
     = Some (mkNode VNone (VList []) (VList []) 0).
Proof.
  split; [lia|].
  apply (missing_content_gives_empty_node Fixtures.bare "docs" Example.base 1 None
           Example.w0); [lia | reflexivity | reflexivity].
Defined.

(** X22: when links are to be followed (the depth parameter is at least 1),
    the base page's successful result has a dictionary as content, or no
    content field, and its links field is there but cannot be iterated
    over, [extend_knowledge_graph] raises the type error; the node of the
    base URL has been added by then. A missing links field is no error. *)
Theorem non_iterable_links_raise {E : Type}
    (fetch : string -> string -> World E -> Dict * World E)
    (framework_name base_url : string) (depth : Z)
    (patterns : option (list string)) (w : World E) (v : PyVal) :
  0 < depth ->
  py_truthy (dict_get_or (fst (fetch base_url "structured" (snd (init_crawler w))))
               "success" VNone) = true ->
  is_dict (dict_get_or (fst (fetch base_url "structured" (snd (init_crawler w))))
             "content" (VDict [])) = true ->
  dict_get (fst (fetch base_url "structured" (snd (init_crawler w)))) "links" = Some v ->
  is_iterable v = false ->
  extend_knowledge_graph fetch framework_name base_url depth patterns w
  = (Raise (mkExn "TypeError" ("'" +:+ py_typename v +:+ "' object is not iterable")),
     snd (fetch base_url "structured" (snd (init_crawler w))))
  /\ is_Some (kg_nodes (knowledge_graph
       (final_state (crawl_run fetch framework_name base_url depth patterns w)))
       !! base_url).
Proof.
  intros Hd Hs Hc Hl Hv.
  assert (Hrun : exists node,
    crawl_run fetch framework_name base_url depth patterns w
    = Raised (TypeError_not_iterable v)
        (add_node base_url node
           (snd (visit fetch base_url 0 []
                   (initial_state framework_name base_url (snd (init_crawler w))))))).
  { destruct (dict_get_or _ "content" _) as [| | | | |c] eqn:Hcontent;
      try discriminate Hc.
    eexists. apply crawl_run_first_raises.
    rewrite first_iteration by lia. rewrite Hs, Hcontent. cbn [py_get].
    apply Z.ltb_lt in Hd. rewrite Hd.
    replace (dict_get_or _ "links" (VList [])) with v
      by (unfold dict_get_or; by rewrite Hl).
    destruct v; try discriminate Hv; reflexivity. }
  destruct Hrun as [node Hrun]. unfold extend_knowledge_graph. rewrite Hrun.
  cbn [final_state add_node world knowledge_graph kg_nodes].
  rewrite fetched_base_world. split; [done|].
  rewrite lookup_insert_eq. by eexists.
Qed.

Lemma non_iterable_links_raise_witness :
  0 < 1
  /\ is_iterable VNone = false
  /\ extend_knowledge_graph Fixtures.no_links "docs" Example.base 1 None Example.w0
     = (Raise (mkExn "TypeError" "'NoneType' object is not iterable"),
        mkWorld (Some (mkCrawler "chromium" true false)) tt).
Proof.
  split; [lia|]. split; [reflexivity|].
  apply (non_iterable_links_raise Fixtures.no_links "docs" Example.base 1 None
           Example.w0 VNone); [lia | reflexivity | reflexivity | reflexivity | reflexivity].
Defined.

(** ** The tool on top of the module's own fetcher *)

Lemma server_crawl_stays_on_base_url_witness :
  server_extend_knowledge_graph Example.arun_page "docs" Example.base 2 None Example.w0
  = (Ok (mkGraph "docs" Example.base
           (<[Example.base := mkNode (VStr "T") (VList [VStr "k"]) (VList []) 0]> ∅)
           []),
     mkWorld (Some (mkCrawler "chromium" true false)) tt)
  /\ kg_relationships
       (mkGraph "docs" Example.base
          (<[Example.base := mkNode (VStr "T") (VList [VStr "k"]) (VList []) 0]> ∅)
          []) = [].
Proof.
  assert (H : server_extend_knowledge_graph Example.arun_page "docs" Example.base 2
                None Example.w0
              = (Ok (mkGraph "docs" Example.base
                       (<[Example.base := mkNode (VStr "T") (VList [VStr "k"])
                                            (VList []) 0]> ∅) []),
                 mkWorld (Some (mkCrawler "chromium" true false)) tt)).
  { unfold server_extend_knowledge_graph, extend_knowledge_graph.
    eval_run 5%nat. reflexivity. }
  split; [exact H|].
  exact (proj1 (server_crawl_stays_on_base_url Example.arun_page "docs" Example.base 2
                  None Example.w0 _ _ H)).
Defined.

(** The call the controller makes for the base URL, on the module's own
    fetcher: the crawler is there already, and the engine is asked for JSON
    output with the extraction strategy. *)
Lemma server_base_fetch {E : Type} (arun : Arun E) (base_url : string) (w : World E) :
  crawl_documentation arun base_url "structured" (snd (init_crawler w))
  = let '(r, e') := arun (fst (init_crawler w)) base_url JsonOutputWithLLM (engine w) in
    let w' := mkWorld (Some (fst (init_crawler w))) e' in
    match r with
    | Raise e => (failure_result base_url e, w')
    | Ok result =>
        match py_get (metadata result) "title" (VStr EmptyString) with
        | Raise e => (failure_result base_url e, w')
        | Ok title =>
            ([("url", VStr base_url);
              ("title", title);
              ("content", extracted_content result);
              ("links", VList []);
              ("metadata", metadata result);
              ("success", success result)], w')
        end
    end.
Proof.
  unfold crawl_documentation, init_crawler. by destruct w as [[c|] e].
Qed.

(** X24: when the engine raises on the base URL, the tool still returns: a
    graph with its framework name and base URL, no node and no
    relationship. A page error never makes the tool itself fail. *)
Theorem server_engine_error_gives_empty_graph {E : Type} (arun : Arun E)
    (framework_name base_url : string) (depth : Z)
    (patterns : option (list string)) (w : World E) (e : PyExn) (e' : E) :
  arun (fst (init_crawler w)) base_url JsonOutputWithLLM (engine w) = (Raise e, e') ->
  exists w',
    server_extend_knowledge_graph arun framework_name base_url depth patterns w
    = (Ok (mkGraph framework_name base_url ∅ []), w').
Proof.
  intros Harun. unfold server_extend_knowledge_graph, extend_knowledge_graph.
  destruct (base_unsuccessful (crawl_documentation arun) framework_name base_url
              depth patterns w) as (st & -> & ->); [|by eexists].
  by rewrite server_base_fetch, Harun.
Qed.

Lemma server_engine_error_gives_empty_graph_witness :
  Example.arun_timeout (fst (init_crawler Example.w0)) Example.base JsonOutputWithLLM
    (engine Example.w0)
  = (Raise (mkExn "TimeoutError" "render timeout"), tt)
  /\ exists w',
       server_extend_knowledge_graph Example.arun_timeout "docs" Example.base 2 None
         Example.w0
       = (Ok (mkGraph "docs" Example.base ∅ []), w').
Proof.
  split; [reflexivity|].
  apply (server_engine_error_gives_empty_graph Example.arun_timeout "docs"
           Example.base 2 None Example.w0 (mkExn "TimeoutError" "render timeout") tt).
  reflexivity.
Defined.

(** X25: when the engine returns a successful result for the base URL
    whose extracted content is not a dictionary, a string or [None] for
    instance, the tool does not return a graph: reading the concepts raises
    the attribute error of the missing [get]. *)
Theorem server_non_dict_content_raises {E : Type} (arun : Arun E)
    (framework_name base_url : string) (depth : Z)
    (patterns : option (list string)) (w : World E) (result : CrawlResult) (e' : E) :
  0 <= depth ->
  arun (fst (init_crawler w)) base_url JsonOutputWithLLM (engine w) = (Ok result, e') ->
  is_dict (metadata result) = true ->
  py_truthy (success result) = true ->
  is_dict (extracted_content result) = false ->
  server_extend_knowledge_graph arun framework_name base_url depth patterns w
  = (Raise (mkExn "AttributeError"
              ("'" +:+ py_typename (extracted_content result)
               +:+ "' object has no attribute 'get'")),
     mkWorld (Some (fst (init_crawler w))) e').
Proof.
  intros Hd Harun Hmeta Hsucc Hcontent.
  unfold server_extend_knowledge_graph, extend_knowledge_graph.
  assert (Hfetch : crawl_documentation arun base_url "structured" (snd (init_crawler w))
                   = ([("url", VStr base_url);
                       ("title", match metadata result with
                                 | VDict d => dict_get_or d "title" (VStr EmptyString)
                                 | _ => VNone
                                 end);
                       ("content", extracted_content result);
                       ("links", VList []);
                       ("metadata", metadata result);
                       ("success", success result)],
                      mkWorld (Some (fst (init_crawler w))) e')).
  { rewrite server_base_fetch, Harun.
    by destruct (metadata result). }
  rewrite (base_content_has_no_get (crawl_documentation arun) framework_name base_url
             depth patterns w (extracted_content result));
    [|done|by rewrite Hfetch|by rewrite Hfetch|done].
  cbn [final_state]. by rewrite fetched_base_world, Hfetch.
Qed.

Lemma server_non_dict_content_raises_witness :
  0 <= 2
  /\ is_dict (VStr "{}") = false
  /\ server_extend_knowledge_graph Fixtures.arun_text_content "docs" Example.base 2
       None Example.w0
     = (Raise (mkExn "AttributeError" "'str' object has no attribute 'get'"),
        mkWorld (Some (mkCrawler "chromium" true false)) tt).
Proof.
  split; [lia|]. split; [reflexivity|].
  apply (server_non_dict_content_raises Fixtures.arun_text_content "docs" Example.base
           2 None Example.w0
           (mkCrawlResult (VDict []) (VStr "# T") (VStr "{}")
              (VList [VStr Example.page_a]) (VBool true)) tt);
    [lia | reflexivity | reflexivity | reflexivity | reflexivity].
Defined.
